(** * ZedCameraOne: parameter loading, construction state, and two callbacks

    A shallow embedding of
    [zed_components/src/zed_camera/include/zed_camera_one_component.hpp]:
    the class [stereolabs::ZedCameraOne], its default member initialisers
    and the member template [getParam].

    The class derives from [rclcpp::Node].  The node's parameter service
    ([declare_parameter], [get_parameter]) and logger are reached through an
    interface ([NodeParametersInterface]); a reference store implements it
    so that calls can be evaluated.

    The header declares [callback_paramChange] and
    [callback_updateDiagnostic] without defining them.  Their behaviour is
    taken from the specification (sections 4.6 and 4.7) and kept in modules
    of its own, [reconfiguration] and [diagnostics]. *)

From Stdlib Require Import ZArith String List Bool Lia.
From Stdlib Require Import PrimFloat.
From stdpp Require Import base option gmap strings.

Import ListNotations.

Local Open Scope Z_scope.

(* ================================================================== *)
(** ** Types of the ZED SDK and of [sl_types.hpp] *)
(* ================================================================== *)

Module sl.

(** Modelled from the spec: [sl::ERROR_CODE] is declared by the ZED SDK
    header [<sl/CameraOne.hpp>], which is not part of the repository.  The
    header under study names only [LAST] (the end-of-enumeration sentinel);
    [SUCCESS] is the value the spec calls "success / Open", and the other
    enumerators stand for the grab outcomes the spec lists (transient
    error, end of input, fatal error). *)
Inductive ERROR_CODE : Set :=
| CORRUPTED_FRAME
| SUCCESS
| FAILURE
| CAMERA_NOT_DETECTED
| END_OF_SVOFILE_REACHED
| LAST.

(** Modelled from the spec: [sl::RESOLUTION], declared by the ZED SDK.  The
    header names [HD1080]; the others are the remaining grab resolutions of
    the monocular cameras. *)
Inductive RESOLUTION : Set :=
| HD4K
| QHDPLUS
| HD1200
| HD1080
| SVGA
| AUTO.

(** Modelled from the spec: [sl::MODEL], declared by the ZED SDK; the header
    names [ZED_XONE_GS], the "camera-model hint" of the spec. *)
Inductive MODEL : Set :=
| ZED_XONE_GS
| ZED_XONE_UHD.

End sl.

(** Modelled from the spec: [PubRes], declared in [sl_types.hpp], which the
    header includes: the output-resolution policy, "native |
    custom-downscale factor". *)
Inductive PubRes : Set :=
| NATIVE
| CUSTOM.

(* ================================================================== *)
(** ** The parameter service of [rclcpp::Node] *)
(* ================================================================== *)

Module rclcpp.

(** [rclcpp::ParameterValue]: a tagged union.  The array alternatives are
    left out; [getParam] is instantiated at scalar and string types. *)
Inductive ParameterValue : Set :=
| PARAMETER_NOT_SET
| PARAMETER_BOOL (b : bool)
| PARAMETER_INTEGER (i : Z)
| PARAMETER_DOUBLE (d : float)
| PARAMETER_STRING (s : string).

(** [rclcpp::ParameterType], the tag of a value. *)
Inductive ParameterType : Set :=
| TYPE_NOT_SET
| TYPE_BOOL
| TYPE_INTEGER
| TYPE_DOUBLE
| TYPE_STRING.

Definition get_type (v : ParameterValue) : ParameterType :=
  match v with
  | PARAMETER_NOT_SET => TYPE_NOT_SET
  | PARAMETER_BOOL _ => TYPE_BOOL
  | PARAMETER_INTEGER _ => TYPE_INTEGER
  | PARAMETER_DOUBLE _ => TYPE_DOUBLE
  | PARAMETER_STRING _ => TYPE_STRING
  end.

Definition ParameterType_eqb (a b : ParameterType) : bool :=
  match a, b with
  | TYPE_NOT_SET, TYPE_NOT_SET
  | TYPE_BOOL, TYPE_BOOL
  | TYPE_INTEGER, TYPE_INTEGER
  | TYPE_DOUBLE, TYPE_DOUBLE
  | TYPE_STRING, TYPE_STRING => true
  | _, _ => false
  end.

(** [rcl_interfaces::msg::ParameterDescriptor].  The two range sequences
    are left out: a default-constructed descriptor has them empty and
    [getParam] never touches them. *)
Record ParameterDescriptor : Set := mkParameterDescriptor {
  name : string;
  type : ParameterType;
  description : string;
  additional_constraints : string;
  read_only : bool;
  dynamic_typing : bool
}.

(** The default-constructed message: empty strings, type 0, flags false. *)
Definition ParameterDescriptor_init : ParameterDescriptor :=
  {| name := EmptyString;
     type := TYPE_NOT_SET;
     description := EmptyString;
     additional_constraints := EmptyString;
     read_only := false;
     dynamic_typing := false |}.

Definition set_read_only (d : ParameterDescriptor) (b : bool) : ParameterDescriptor :=
  {| name := name d;
     type := type d;
     description := description d;
     additional_constraints := additional_constraints d;
     read_only := b;
     dynamic_typing := dynamic_typing d |}.

Definition set_name_type (d : ParameterDescriptor) (n : string) (t : ParameterType)
  : ParameterDescriptor :=
  {| name := n;
     type := t;
     description := description d;
     additional_constraints := additional_constraints d;
     read_only := read_only d;
     dynamic_typing := dynamic_typing d |}.

(** The exceptions of [rclcpp::exceptions] that the two calls can raise. *)
Inductive exception : Set :=
| InvalidParametersException
| ParameterAlreadyDeclaredException
| InvalidParameterTypeException
| InvalidParameterValueException.

(** A call either returns or throws. *)
Inductive Result (A : Type) : Type :=
| Return (a : A)
| Throw (e : exception).

Arguments Return {A} a.
Arguments Throw {A} e.

(** The value types [T] at which a parameter is read and written: the
    converting constructor [rclcpp::ParameterValue(T)] and
    [ParameterValue::get<T>()], which throws on a type mismatch. *)
Class ParameterT (T : Type) : Type := {
  ParameterValue_of : T -> ParameterValue;
  get_value : ParameterValue -> Result T
}.

(** C++ [int] is 32 bits wide; a parameter stores an [int64_t]. *)
Definition int_of_int64 (z : Z) : Z := (z + 2 ^ 31) mod 2 ^ 32 - 2 ^ 31.

#[export] Instance ParameterT_bool : ParameterT bool := {|
  ParameterValue_of := PARAMETER_BOOL;
  get_value v := match v with
                 | PARAMETER_BOOL b => Return b
                 | _ => Throw InvalidParameterTypeException
                 end
|}.

#[export] Instance ParameterT_int : ParameterT Z := {|
  ParameterValue_of := PARAMETER_INTEGER;
  get_value v := match v with
                 | PARAMETER_INTEGER i => Return (int_of_int64 i)
                 | _ => Throw InvalidParameterTypeException
                 end
|}.

#[export] Instance ParameterT_double : ParameterT float := {|
  ParameterValue_of := PARAMETER_DOUBLE;
  get_value v := match v with
                 | PARAMETER_DOUBLE d => Return d
                 | _ => Throw InvalidParameterTypeException
                 end
|}.

#[export] Instance ParameterT_string : ParameterT string := {|
  ParameterValue_of := PARAMETER_STRING;
  get_value v := match v with
                 | PARAMETER_STRING s => Return s
                 | _ => Throw InvalidParameterTypeException
                 end
|}.

(** What the component uses of its base class: declaring a parameter
    (which may throw and otherwise yields the node with the parameter
    declared) and the untyped lookup [get_parameter(name, Parameter &)],
    [None] when it returns [false]. *)
Class NodeParametersInterface (N : Type) : Type := {
  declare_parameter : string -> ParameterValue -> ParameterDescriptor -> N -> Result N;
  get_parameter_variant : string -> N -> option ParameterValue
}.

(** The member template [Node::get_parameter<T>(name, T & out)]: the
    untyped lookup, and on success the conversion to [T].  [Return None]
    is the [false] result, which leaves [out] untouched. *)
Definition get_parameter {N : Type} `{NodeParametersInterface N}
    {T : Type} `{ParameterT T} (nm : string) (n : N) : Result (option T) :=
  match get_parameter_variant nm n with
  | Some v =>
      match get_value v with
      | Return t => Return (Some t)
      | Throw e => Throw e
      end
  | None => Return None
  end.

(** *** A reference store *)

(** [rclcpp::node_interfaces::ParameterInfo]. *)
Record ParameterInfo : Set := mkParameterInfo {
  value : ParameterValue;
  descriptor : ParameterDescriptor
}.

(** The node's declared parameters and the overrides it was started with
    ([NodeOptions::parameter_overrides], launch files). *)
Record Node : Type := mkNode {
  parameters : gmap string ParameterInfo;
  parameter_overrides : gmap string ParameterValue
}.

Definition string_empty (s : string) : bool :=
  match s with
  | EmptyString => true
  | String _ _ => false
  end.

(** [declare_parameter(name, default_value, descriptor)] of the store:
    an empty or already declared name throws; a statically typed parameter
    takes its type from the default; the initial value is the override when
    there is one, the default otherwise; an initial value of another type
    throws; an unset initial value declares the parameter without a
    value. *)
Definition Node_declare_parameter (nm : string) (default_value : ParameterValue)
    (d : ParameterDescriptor) (n : Node) : Result Node :=
  if string_empty nm then Throw InvalidParametersException
  else match parameters n !! nm with
  | Some _ => Throw ParameterAlreadyDeclaredException
  | None =>
      let ty := if dynamic_typing d then TYPE_NOT_SET else get_type default_value in
      if negb (dynamic_typing d) && ParameterType_eqb ty TYPE_NOT_SET
      then Throw InvalidParameterTypeException
      else
        let initial_value :=
          match parameter_overrides n !! nm with
          | Some o => o
          | None => default_value
          end in
        if negb (dynamic_typing d)
           && negb (ParameterType_eqb (get_type initial_value) TYPE_NOT_SET)
           && negb (ParameterType_eqb (get_type initial_value) ty)
        then Throw InvalidParameterTypeException
        else Return
          {| parameters :=
               <[nm := {| value := initial_value;
                          descriptor := set_name_type d nm ty |}]> (parameters n);
             parameter_overrides := parameter_overrides n |}
  end.

(** [get_parameter(name, Parameter &)] of the store: [true] when the
    parameter is declared and holds a value. *)
Definition Node_get_parameter_variant (nm : string) (n : Node) : option ParameterValue :=
  match parameters n !! nm with
  | Some pi =>
      match value pi with
      | PARAMETER_NOT_SET => None
      | v => Some v
      end
  | None => None
  end.

#[export] Instance Node_parameters : NodeParametersInterface Node := {|
  declare_parameter := Node_declare_parameter;
  get_parameter_variant := Node_get_parameter_variant
|}.

(** [rclcpp::Parameter]: a name and a value, one proposed change of a
    [set_parameters] request ([Parameter] is a keyword here). *)
Record Parameter_ : Set := mkParameter {
  get_name : string;
  get_parameter_value : ParameterValue
}.

(** *** Logging *)

(** What is streamed into a log record with [<<]: text, or a value of the
    parameter's type. *)
Inductive StreamItem : Set :=
| Text (s : string)
| Value (v : ParameterValue).

Inductive Severity : Set :=
| WARN
| INFO.

Record LogRecord : Set := mkLogRecord {
  severity : Severity;
  message : list StreamItem
}.

End rclcpp.

(* ================================================================== *)
(** ** The component *)
(* ================================================================== *)

Module stereolabs.

Import rclcpp.

(** *** Calls into the node: state and exceptions *)

(** What a member function can change outside its own arguments: the base
    class's parameter service and what was sent to the logger. *)
Record Env (N : Type) : Type := mkEnv {
  node : N;
  logger : list LogRecord
}.

Arguments mkEnv {N} node logger.
Arguments node {N} e.
Arguments logger {N} e.

(** A computation over [Env N] that returns or throws; a thrown exception
    leaves the member function at once and keeps the state reached. *)
Definition M (N A : Type) : Type := Env N -> Result A * Env N.

Definition ret {N A : Type} (a : A) : M N A := fun e => (Return a, e).

Definition bind {N A B : Type} (m : M N A) (k : A -> M N B) : M N B :=
  fun e =>
    match m e with
    | (Return a, e') => k a e'
    | (Throw x, e') => (Throw x, e')
    end.

Notation "x <- m ;; k" := (bind m (fun x => k))
  (at level 100, m at next level, right associativity).
Notation "m ;;; k" := (bind m (fun _ => k))
  (at level 100, right associativity).

(** Lifting of the interface's two calls. *)
Definition call_declare_parameter {N : Type} `{NodeParametersInterface N}
    (nm : string) (v : ParameterValue) (d : ParameterDescriptor) : M N unit :=
  fun e =>
    match declare_parameter nm v d (node e) with
    | Return n' => (Return tt, mkEnv n' (logger e))
    | Throw x => (Throw x, e)
    end.

Definition call_get_parameter {N : Type} `{NodeParametersInterface N}
    {T : Type} `{ParameterT T} (nm : string) : M N (option T) :=
  fun e => (get_parameter nm (node e), e).

(** [RCLCPP_WARN_STREAM(get_logger(), ...)] and [RCLCPP_INFO_STREAM]. *)
Definition RCLCPP_WARN_STREAM {N : Type} (msg : list StreamItem) : M N unit :=
  fun e => (Return tt, mkEnv (node e) (logger e ++ [mkLogRecord WARN msg])).

Definition RCLCPP_INFO_STREAM {N : Type} (msg : list StreamItem) : M N unit :=
  fun e => (Return tt, mkEnv (node e) (logger e ++ [mkLogRecord INFO msg])).

(** *** [ZedCameraOne::getParam] (lines 198-220)

    [outVal] is a reference in the source: the function takes the value the
    caller's variable holds and returns the value it holds afterwards. *)
Definition getParam {N : Type} `{NodeParametersInterface N}
    {T : Type} `{ParameterT T}
    (paramName : string) (defValue : T) (outVal : T)
    (log_info : string) (dynamic : bool) : M N T :=
  let descriptor := set_read_only ParameterDescriptor_init (negb dynamic) in
  call_declare_parameter paramName (ParameterValue_of defValue) descriptor ;;;
  found <- call_get_parameter paramName ;;
  outVal <- match found with
            | Some v => ret v
            | None =>
                RCLCPP_WARN_STREAM
                  [ Text "The parameter '";
                    Text paramName;
                    Text "' is not available or is not valid, using the default value: ";
                    Value (ParameterValue_of defValue) ] ;;;
                ret outVal
            end ;;
  (if string_empty log_info then ret tt
   else RCLCPP_INFO_STREAM [ Text log_info; Value (ParameterValue_of outVal) ]) ;;;
  ret outVal.

(** The defaults of the declaration (line 55):
    [std::string log_info = std::string(), bool dynamic = false]. *)
Definition default_log_info : string := EmptyString.
Definition default_dynamic : bool := false.

(** A call that passes neither optional argument. *)
Definition getParam_3 {N : Type} `{NodeParametersInterface N}
    {T : Type} `{ParameterT T}
    (paramName : string) (defValue : T) (outVal : T) : M N T :=
  getParam paramName defValue outVal default_log_info default_dynamic.

(** A call that passes [log_info] only. *)
Definition getParam_4 {N : Type} `{NodeParametersInterface N}
    {T : Type} `{ParameterT T}
    (paramName : string) (defValue : T) (outVal : T) (log_info : string) : M N T :=
  getParam paramName defValue outVal log_info default_dynamic.

(** The records [getParam] sends to the logger, named for the statements
    below. *)
Definition warning_record {T : Type} `{ParameterT T} (paramName : string) (defValue : T)
  : LogRecord :=
  mkLogRecord WARN
    [ Text "The parameter '";
      Text paramName;
      Text "' is not available or is not valid, using the default value: ";
      Value (ParameterValue_of defValue) ].

Definition info_records {T : Type} `{ParameterT T} (log_info : string) (outVal : T)
  : list LogRecord :=
  if string_empty log_info then []
  else [ mkLogRecord INFO [ Text log_info; Value (ParameterValue_of outVal) ] ].

(** *** The data members and their default initialisers (lines 70-193) *)

Section Members.

(** [NOT_VALID_TEMP] comes from [sl_types.hpp], which the header includes
    and which is not at hand: the sentinel is a parameter here. *)
Variable NOT_VALID_TEMP : float.

(** The members that hold plain values.  The handles of external types
    (the SDK camera, threads, timers, publishers, QoS, messages, the
    diagnostic updater) carry no value read below and are left out. *)
Record ZedCameraOne : Set := mkZedCameraOne {
  (* Threads and Timers *)
  _threadStop : bool;
  (* Debug variables *)
  _debugCommon : bool;
  _debugVideoDepth : bool;
  _debugSensors : bool;
  _debugCamCtrl : bool;
  _debugStreaming : bool;
  (* Topics *)
  _topicRoot : string;
  _imgTopic : string;
  _imgRawTopic : string;
  _imgGrayTopic : string;
  _imgRawGrayTopic : string;
  _tempTopic : string;
  (* Parameters *)
  _cameraName : string;
  _camGrabFrameRate : Z;
  _camResol : sl.RESOLUTION;
  _pubResolution : PubRes;
  _customDownscaleFactor : float;
  _cameraFlip : bool;
  _enableHDR : bool;
  _openTimeout_sec : float;
  _opencvCalibFile : string;
  _sdkVerbose : Z;
  _gpuId : Z;
  _camSerialNumber : Z;
  _camUserModel : sl.MODEL;
  _svoFilepath : string;
  _svoRealtime : bool;
  _streamAddr : string;
  _streamPort : Z;
  (* Running status *)
  _debugMode : bool;
  _svoMode : bool;
  _streamMode : bool;
  _connStatus : sl.ERROR_CODE;
  _grabStatus : sl.ERROR_CODE;
  _tempImu : float;
  (* Camera info *)
  _camRealModel : sl.MODEL;
  _camFwVersion : Z;
  _sensFwVersion : Z;
  (* Stereolabs Mat Info *)
  _camWidth : Z;
  _camHeight : Z;
  (* Frame IDs *)
  _cameraLinkFrameId : string;
  _cameraCenterFrameId : string;
  _camImgFrameId : string;
  _camOptFrameId : string;
  _imuFrameId : string
}.

(** The value members that have no initialiser ([std::atomic<bool>],
    [sl::MODEL], [unsigned int], [int]): until the constructor or a later
    function assigns them they hold whatever value the storage has. *)
Record Indeterminate : Set := mkIndeterminate {
  i_threadStop : bool;
  i_camRealModel : sl.MODEL;
  i_camFwVersion : Z;
  i_sensFwVersion : Z;
  i_camWidth : Z;
  i_camHeight : Z
}.

(** Default member initialisation: each member with an initialiser gets
    it, a [std::string] without one is empty, the others are as found. *)
Definition default_member_init (u : Indeterminate) : ZedCameraOne :=
  {| _threadStop := i_threadStop u;
     _debugCommon := false;
     _debugVideoDepth := false;
     _debugSensors := false;
     _debugCamCtrl := false;
     _debugStreaming := false;
     _topicRoot := "~/";
     _imgTopic := "";
     _imgRawTopic := "";
     _imgGrayTopic := "";
     _imgRawGrayTopic := "";
     _tempTopic := "";
     _cameraName := "zed_one";
     _camGrabFrameRate := 30;
     _camResol := sl.HD1080;
     _pubResolution := NATIVE;
     _customDownscaleFactor := 1.0%float;
     _cameraFlip := false;
     _enableHDR := false;
     _openTimeout_sec := 5%float;
     _opencvCalibFile := "";
     _sdkVerbose := 0;
     _gpuId := -1;
     _camSerialNumber := 0;
     _camUserModel := sl.ZED_XONE_GS;
     _svoFilepath := "";
     _svoRealtime := true;
     _streamAddr := "";
     _streamPort := 10000;
     _debugMode := false;
     _svoMode := false;
     _streamMode := false;
     _connStatus := sl.LAST;
     _grabStatus := sl.LAST;
     _tempImu := NOT_VALID_TEMP;
     _camRealModel := i_camRealModel u;
     _camFwVersion := i_camFwVersion u;
     _sensFwVersion := i_sensFwVersion u;
     _camWidth := i_camWidth u;
     _camHeight := i_camHeight u;
     _cameraLinkFrameId := "";
     _cameraCenterFrameId := "";
     _camImgFrameId := "";
     _camOptFrameId := "";
     _imuFrameId := "" |}.

End Members.

End stereolabs.

(* ================================================================== *)
(** ** The reconfiguration gate (spec section 4.7) *)
(* ================================================================== *)

Module reconfiguration.

Import rclcpp.

(** Modelled from the spec: [RejectReason] of sections 4.7 and 7.  The
    header declares [callback_paramChange] (lines 63-64) and its handle
    (line 147); the body is missing. *)
Inductive RejectReason : Set :=
| ReadOnly
| InvalidValue.

(** Modelled from the spec: the answer of [validate],
    [Result<(), RejectReason>] (section 4.7). *)
Inductive Verdict : Set :=
| Accept
| Reject (r : RejectReason).

(** Modelled from the spec: the accept/reject answer the callback gives the
    parameter subsystem for a batch (section 6).  The source's return type,
    [rcl_interfaces::msg::SetParametersResult], is a flag and a reason. *)
Record SetParametersResult : Set := mkSetParametersResult {
  successful : bool;
  reason : option RejectReason
}.

(** Modelled from the spec: what a reconfiguration can touch.  [subsystem]
    is the parameter subsystem's store, with the read-only marks made at
    registration time; [DynamicParameterSet] is the "mapping of parameter
    name to validated value" of section 3, the values in effect for the
    loops. *)
Record Gate : Type := mkGate {
  subsystem : Node;
  DynamicParameterSet : gmap string ParameterValue
}.

Section Gate.

(** The per-parameter value ranges are not given by the spec. *)
Variable in_range : string -> ParameterValue -> bool.

(** Modelled from the spec: [validate(name, proposedValue)] of section 4.7,
    the missing core of [callback_paramChange].  A parameter marked
    read-only at registration is rejected with [ReadOnly] whatever the
    proposed value (section 8: a read-only change "returns ReadOnly"); a
    value of another type than the registered one, or out of range, is
    rejected with [InvalidValue].  The spec does not rule on a name that
    was never registered: it holds no validated value and is rejected. *)
Definition validate (g : Gate) (nm : string) (proposedValue : ParameterValue) : Verdict :=
  match parameters (subsystem g) !! nm with
  | Some pi =>
      if read_only (descriptor pi) then Reject ReadOnly
      else if negb (ParameterType_eqb (get_type proposedValue) (type (descriptor pi)))
      then Reject InvalidValue
      else if negb (in_range nm proposedValue) then Reject InvalidValue
      else Accept
  | None => Reject InvalidValue
  end.

(** Modelled from the spec: [apply(name, value)] of section 4.7: the value
    in effect becomes the new one, in one step. *)
Definition apply (nm : string) (v : ParameterValue) (g : Gate) : Gate :=
  {| subsystem := subsystem g;
     DynamicParameterSet := <[nm := v]> (DynamicParameterSet g) |}.

(** Modelled from the spec: the first rejection in a batch of proposed
    changes, in the order given. *)
Fixpoint first_rejection (g : Gate) (ps : list Parameter_) : option RejectReason :=
  match ps with
  | [] => None
  | p :: ps' =>
      match validate g (get_name p) (get_parameter_value p) with
      | Reject r => Some r
      | Accept => first_rejection g ps'
      end
  end.

(** Modelled from the spec: [apply] for every change of an accepted batch,
    in the order given. *)
Definition apply_all (ps : list Parameter_) (g : Gate) : Gate :=
  fold_left (fun g' p => apply (get_name p) (get_parameter_value p) g') ps g.

(** Modelled from the spec: [callback_paramChange], declared at lines 63-64
    and not defined in the header.  It is "invoked with a
    batch of proposed changes, to which this core returns accept/reject per
    4.7" (section 6); a rejection is "surfaced synchronously to the
    reconfiguration caller, no state change applied" (section 7). *)
Definition callback_paramChange (ps : list Parameter_) (g : Gate)
  : SetParametersResult * Gate :=
  match first_rejection g ps with
  | Some r => ({| successful := false; reason := Some r |}, g)
  | None => ({| successful := true; reason := None |}, apply_all ps g)
  end.

(** Modelled from the spec: the parameter subsystem (an "external
    collaborator", section 1) storing one accepted value. *)
Definition store_value (p : Parameter_) (n : Node) : Node :=
  match parameters n !! get_name p with
  | Some pi =>
      {| parameters :=
           <[get_name p := {| value := get_parameter_value p;
                              descriptor := descriptor pi |}]> (parameters n);
         parameter_overrides := parameter_overrides n |}
  | None => n
  end.

(** Modelled from the spec: the parameter subsystem's side of a change
    request (section 6): it asks the callback and stores the proposed
    values only when the batch is accepted. *)
Definition set_parameters (ps : list Parameter_) (g : Gate) : SetParametersResult * Gate :=
  let '(r, g') := callback_paramChange ps g in
  if successful r
  then (r, {| subsystem := fold_left (fun n p => store_value p n) ps (subsystem g');
              DynamicParameterSet := DynamicParameterSet g' |})
  else (r, g').

End Gate.

End reconfiguration.

(* ================================================================== *)
(** ** The diagnostics aggregator (spec section 4.6) *)
(* ================================================================== *)

Module diagnostics.

Import stereolabs.

(** Modelled from the spec: the thread-liveness flags and ages of a
    Diagnostic Snapshot (section 3) that are no data member of the class:
    they are observed when the request is served.  Ages are in
    nanoseconds. *)
Record Observed : Set := mkObserved {
  grabThread_alive : bool;
  videoThread_alive : bool;
  sensThread_alive : bool;
  frame_age : Z;
  temperature_age : Z
}.

(** Modelled from the spec: the Diagnostic Snapshot of section 3, "a
    point-in-time read-only report combining the latest values from every
    component (connection status, grab status, frame age, temperature
    validity, thread-alive flags)". *)
Record DiagnosticSnapshot : Set := mkDiagnosticSnapshot {
  connection_status : sl.ERROR_CODE;
  grab_status : sl.ERROR_CODE;
  temperature : float;
  observed : Observed
}.

(** Modelled from the spec: the snapshot is "rebuilt lazily, on each
    diagnostics request, from the current state of the other entities". *)
Definition snapshot (z : ZedCameraOne) (o : Observed) : DiagnosticSnapshot :=
  {| connection_status := _connStatus z;
     grab_status := _grabStatus z;
     temperature := _tempImu z;
     observed := o |}.

(** Modelled from the spec: overall health, [OK | Warn | Error]. *)
Inductive Health : Set :=
| OK
| Warn
| Error.

(** Modelled from the spec: the connection is "Open" when the status the
    component keeps in [_connStatus] is the SDK's success code. *)
Definition connection_open (s : DiagnosticSnapshot) : bool :=
  match connection_status s with
  | sl.SUCCESS => true
  | _ => false
  end.

(** Modelled from the spec: no worker thread "has died". *)
Definition all_threads_alive (s : DiagnosticSnapshot) : bool :=
  grabThread_alive (observed s)
  && videoThread_alive (observed s)
  && sensThread_alive (observed s).

(** Modelled from the spec: "frame age or temperature age exceeds a
    staleness threshold". *)
Definition stale (staleness_threshold : Z) (s : DiagnosticSnapshot) : bool :=
  (staleness_threshold <? frame_age (observed s))
  || (staleness_threshold <? temperature_age (observed s)).

(** Modelled from the spec: the classification of section 4.6, "Error if
    connection is not Open or any worker thread has died; Warn if frame
    age or temperature age exceeds a staleness threshold; OK otherwise". *)
Definition classify (staleness_threshold : Z) (s : DiagnosticSnapshot) : Health :=
  if negb (connection_open s) || negb (all_threads_alive s) then Error
  else if stale staleness_threshold s then Warn
  else OK.

(** Modelled from the spec: [callback_updateDiagnostic], declared at lines
    65-66 and not defined in the header.  The aggregator is a
    "pure read-side component": it composes the snapshot, classifies it,
    and hands the component back as it found it. *)
Definition callback_updateDiagnostic (staleness_threshold : Z) (o : Observed)
    (z : ZedCameraOne) : (DiagnosticSnapshot * Health) * ZedCameraOne :=
  let s := snapshot z o in
  ((s, classify staleness_threshold s), z).

End diagnostics.

(* ================================================================== *)
(** ** Inputs used in the examples *)
(* ================================================================== *)

Module inputs.

Import rclcpp stereolabs reconfiguration diagnostics.

(** A node that has declared nothing and was started without overrides. *)
Definition fresh_node : Node :=
  {| parameters := ∅; parameter_overrides := ∅ |}.

(** A node started with [NodeOptions::parameter_overrides] holding
    [rclcpp::Parameter("general.grab_frame_rate")], a parameter without a
    value. *)
Definition unset_override_node : Node :=
  {| parameters := ∅;
     parameter_overrides := {[ "general.grab_frame_rate"%string := PARAMETER_NOT_SET ]} |}.

(** A node started with the frame rate overridden to 15. *)
Definition override_node : Node :=
  {| parameters := ∅;
     parameter_overrides := {[ "general.grab_frame_rate"%string := PARAMETER_INTEGER 15 ]} |}.

Definition start (n : Node) : Env Node := mkEnv n [].

(** [-273.15f], the nearest single-precision value. *)
Definition absolute_zero : float := (-273.149993896484375)%float.

Definition no_members : Indeterminate :=
  {| i_threadStop := false;
     i_camRealModel := sl.ZED_XONE_GS;
     i_camFwVersion := 0;
     i_sensFwVersion := 0;
     i_camWidth := 0;
     i_camHeight := 0 |}.

Definition any_range (nm : string) (v : ParameterValue) : bool := true.

End inputs.

(* ================================================================== *)
(** ** Properties of [getParam] *)
(* ================================================================== *)

Import rclcpp stereolabs.

(** The descriptor [getParam] builds: a default-constructed message whose
    only changed field is [read_only]. *)
Lemma read_only_set_read_only (d : ParameterDescriptor) (b : bool) :
  read_only (set_read_only d b) = b.
Proof. reflexivity. Qed.

Lemma string_empty_iff (s : string) : string_empty s = true <-> s = EmptyString.
Proof. destruct s; simpl; split; congruence. Qed.

Section AnyNode.

Context {N : Type} `{NodeParametersInterface N} {T : Type} `{ParameterT T}.

Variables (paramName : string) (defValue outVal : T) (log_info : string) (dynamic : bool).

Local Abbreviation descriptor := (set_read_only ParameterDescriptor_init (negb dynamic)).

(** When the declaration throws, the exception leaves [getParam] and
    nothing else has happened. *)
Lemma getParam_declare_throws (e : Env N) (x : exception) :
  declare_parameter paramName (ParameterValue_of defValue) descriptor (node e) = Throw x ->
  getParam paramName defValue outVal log_info dynamic e = (Throw x, e).
Proof.
  intros Hd. unfold getParam, bind, call_declare_parameter.
  rewrite Hd. reflexivity.
Qed.

(** When the lookup returns [false]: a warning, and the caller's variable
    keeps the value it had. *)
Lemma getParam_lookup_false (e : Env N) (n' : N) :
  declare_parameter paramName (ParameterValue_of defValue) descriptor (node e) = Return n' ->
  get_parameter_variant paramName n' = None ->
  getParam paramName defValue outVal log_info dynamic e
  = (Return outVal,
     mkEnv n' ((logger e ++ [warning_record paramName defValue])
               ++ info_records log_info outVal)).
Proof.
  intros Hd Hg. unfold getParam, bind, call_declare_parameter, call_get_parameter.
  rewrite Hd. cbn [node logger]. unfold get_parameter. rewrite Hg.
  unfold info_records, warning_record, RCLCPP_WARN_STREAM, RCLCPP_INFO_STREAM, ret.
  cbn [node logger].
  destruct (string_empty log_info); cbn [node logger].
  - rewrite app_nil_r. reflexivity.
  - reflexivity.
Qed.

(** When the lookup succeeds and converts: the caller's variable receives
    the stored value, and no warning is logged. *)
Lemma getParam_lookup_true (e : Env N) (n' : N) (v : ParameterValue) (t : T) :
  declare_parameter paramName (ParameterValue_of defValue) descriptor (node e) = Return n' ->
  get_parameter_variant paramName n' = Some v ->
  get_value v = Return t ->
  getParam paramName defValue outVal log_info dynamic e
  = (Return t, mkEnv n' (logger e ++ info_records log_info t)).
Proof.
  intros Hd Hg Hv. unfold getParam, bind, call_declare_parameter, call_get_parameter.
  rewrite Hd. cbn [node logger]. unfold get_parameter. rewrite Hg, Hv.
  unfold info_records, RCLCPP_INFO_STREAM, ret. cbn [node logger].
  destruct (string_empty log_info); cbn [node logger].
  - rewrite app_nil_r. reflexivity.
  - reflexivity.
Qed.

(** When the stored value is of another type, the conversion throws after
    the declaration has taken effect. *)
Lemma getParam_conversion_throws (e : Env N) (n' : N) (v : ParameterValue) (x : exception) :
  declare_parameter paramName (ParameterValue_of defValue) descriptor (node e) = Return n' ->
  get_parameter_variant paramName n' = Some v ->
  get_value (T := T) v = Throw x ->
  getParam paramName defValue outVal log_info dynamic e = (Throw x, mkEnv n' (logger e)).
Proof.
  intros Hd Hg Hv. unfold getParam, bind, call_declare_parameter, call_get_parameter.
  rewrite Hd. cbn [node logger]. unfold get_parameter. rewrite Hg, Hv.
  reflexivity.
Qed.

(** In every case the node [getParam] leaves behind is the one the
    declaration produced, or the initial one when the declaration threw. *)
Lemma getParam_node (e e' : Env N) (r : Result T) :
  getParam paramName defValue outVal log_info dynamic e = (r, e') ->
  match declare_parameter paramName (ParameterValue_of defValue) descriptor (node e) with
  | Return n' => node e' = n'
  | Throw x => node e' = node e /\ r = Throw x
  end.
Proof.
  intros Hrun.
  destruct (declare_parameter paramName (ParameterValue_of defValue) descriptor (node e))
    as [n'|x] eqn:Hd.
  - destruct (get_parameter_variant paramName n') as [v|] eqn:Hg.
    + destruct (get_value (T := T) v) as [t|x] eqn:Hv.
      * rewrite (getParam_lookup_true e n' v t Hd Hg Hv) in Hrun.
        inversion Hrun; reflexivity.
      * rewrite (getParam_conversion_throws e n' v x Hd Hg Hv) in Hrun.
        inversion Hrun; reflexivity.
    + rewrite (getParam_lookup_false e n' Hd Hg) in Hrun.
      inversion Hrun; reflexivity.
  - rewrite (getParam_declare_throws e x Hd) in Hrun.
    inversion Hrun; subst. split; reflexivity.
Qed.

End AnyNode.

(** *** On the reference store *)

(** A declaration that returns has added exactly one entry, under a name
    that was free, holding the override or the default, and carrying the
    flags of the descriptor it was given. *)
Lemma Node_declare_parameter_Return (nm : string) (v : ParameterValue)
    (d : ParameterDescriptor) (n n' : Node) :
  Node_declare_parameter nm v d n = Return n' ->
  parameters n !! nm = None
  /\ parameter_overrides n' = parameter_overrides n
  /\ exists pi : ParameterInfo,
       parameters n' = <[nm := pi]> (parameters n)
       /\ value pi = default (v) (parameter_overrides n !! nm)
       /\ read_only (descriptor pi) = read_only d.
Proof.
  unfold Node_declare_parameter. intros Hd.
  destruct (string_empty nm); [discriminate|].
  destruct (parameters n !! nm) eqn:Hfree; [discriminate|].
  destruct (negb (dynamic_typing d) && _); [discriminate|].
  destruct (negb (dynamic_typing d) && _ && _); [discriminate|].
  inversion Hd; subst; clear Hd. cbn.
  split; [reflexivity|]. split; [reflexivity|].
  eexists. split; [reflexivity|]. cbn. split; [|reflexivity].
  destruct (parameter_overrides n !! nm); reflexivity.
Qed.

(** A statically typed declaration under a fresh, non-empty name without
    an override returns, and stores the default. *)
Lemma Node_declare_parameter_fresh (nm : string) (v : ParameterValue)
    (d : ParameterDescriptor) (n : Node) :
  nm <> EmptyString ->
  parameters n !! nm = None ->
  parameter_overrides n !! nm = None ->
  dynamic_typing d = false ->
  v <> PARAMETER_NOT_SET ->
  Node_declare_parameter nm v d n
  = Return {| parameters := <[nm := {| value := v;
                                       descriptor := set_name_type d nm (get_type v) |}]>
                              (parameters n);
              parameter_overrides := parameter_overrides n |}.
Proof.
  intros Hnm Hfree Hover Hdyn Hv. unfold Node_declare_parameter.
  destruct (string_empty nm) eqn:He.
  - apply string_empty_iff in He. contradiction.
  - rewrite Hfree, Hover, Hdyn. cbn.
    destruct v; try contradiction; reflexivity.
Qed.

(** The two call forms that leave [dynamic] out pass [false]. *)
Lemma getParam_3_unfold {N : Type} `{NodeParametersInterface N} {T : Type} `{ParameterT T}
    (paramName : string) (defValue outVal : T) :
  getParam_3 paramName defValue outVal
  = getParam paramName defValue outVal EmptyString false.
Proof. reflexivity. Qed.

Lemma getParam_4_unfold {N : Type} `{NodeParametersInterface N} {T : Type} `{ParameterT T}
    (paramName : string) (defValue outVal : T) (log_info : string) :
  getParam_4 paramName defValue outVal log_info
  = getParam paramName defValue outVal log_info false.
Proof. reflexivity. Qed.

(** What a call of [getParam] does to the store: nothing when the
    declaration throws, and otherwise one new entry whose [read_only] mark
    is the negation of [dynamic]. *)
Lemma getParam_store (T : Type) (PT : ParameterT T)
    (paramName : string) (defValue outVal : T) (log_info : string) (dynamic : bool)
    (e e' : Env Node) (r : Result T) :
  getParam paramName defValue outVal log_info dynamic e = (r, e') ->
  (node e' = node e /\ exists x : exception, r = Throw x)
  \/ (exists pi : ParameterInfo,
        parameters (node e) !! paramName = None
        /\ parameters (node e') = <[paramName := pi]> (parameters (node e))
        /\ value pi = default (ParameterValue_of defValue)
                              (parameter_overrides (node e) !! paramName)
        /\ read_only (descriptor pi) = negb dynamic).
Proof.
  intros Hrun. apply getParam_node in Hrun. cbn [declare_parameter Node_parameters] in Hrun.
  destruct (Node_declare_parameter paramName (ParameterValue_of defValue)
              (set_read_only ParameterDescriptor_init (negb dynamic)) (node e))
    as [n'|x] eqn:Hd.
  - right. subst n'.
    destruct (Node_declare_parameter_Return _ _ _ _ _ Hd) as (Hfree & _ & pi & Hins & Hval & Hro).
    exists pi. rewrite Hro, read_only_set_read_only. auto.
  - left. destruct Hrun as [Hn Hr]. split; [exact Hn|]. exists x. exact Hr.
Qed.

(** C1 (evaluation at the failing input).  The node was started with an
    override of ["general.grab_frame_rate"] that holds no value, so the
    declaration succeeds and the lookup returns [false].  Called with
    default [30] on a variable holding [15], [getParam] logs "... using the
    default value: 30" and leaves [15] in the variable: the default is
    announced, not assigned. *)
Theorem getParam_failed_lookup_leaves_outVal :
  let e := inputs.start inputs.unset_override_node in
  let run := getParam "general.grab_frame_rate" 30 15 EmptyString false e in
  get_parameter (T := Z) "general.grab_frame_rate" (node (snd run)) = Return None
  /\ fst run = Return 15
  /\ fst run <> Return 30
  /\ logger (snd run) = [warning_record "general.grab_frame_rate" 30].
Proof.
  intros e run. split; [|split; [|split]].
  - vm_compute. reflexivity.
  - vm_compute. reflexivity.
  - vm_compute. discriminate.
  - vm_compute. reflexivity.
Qed.

(** C2.  Every call of [getParam] hands [declare_parameter] a descriptor
    whose [read_only] field is [negb dynamic], and what is registered
    follows the declaration's answer and nothing else.  When the
    declaration throws, that exception leaves [getParam] and the
    environment is untouched.  When it returns, the node of the call is
    the node the declaration produced: [paramName] was free and now holds
    an entry whose [read_only] field is [negb dynamic], so the parameter is
    read-only exactly when [dynamic] is [false].  The two call forms that
    leave [dynamic] out pass [false] and so register read-only. *)
Theorem getParam_read_only_iff_not_dynamic (T : Type) (PT : ParameterT T)
    (paramName : string) (defValue outVal : T) (log_info : string) (dynamic : bool)
    (e : Env Node) :
  let passed := set_read_only ParameterDescriptor_init (negb dynamic) in
  let r := getParam paramName defValue outVal log_info dynamic e in
  (read_only passed = negb dynamic
   /\ (read_only passed = true <-> dynamic = false))
  /\ match declare_parameter paramName (ParameterValue_of defValue) passed (node e) with
     | Throw x => r = (Throw x, e)
     | Return n' =>
         node (snd r) = n'
         /\ exists pi : ParameterInfo,
              parameters (node e) !! paramName = None
              /\ parameters (node (snd r)) = <[paramName := pi]> (parameters (node e))
              /\ parameters (node (snd r)) !! paramName = Some pi
              /\ read_only (descriptor pi) = negb dynamic
              /\ (read_only (descriptor pi) = true <-> dynamic = false)
     end
  /\ (getParam_3 paramName defValue outVal
      = getParam paramName defValue outVal EmptyString false
      /\ getParam_4 paramName defValue outVal log_info
         = getParam paramName defValue outVal log_info false).
Proof.
  intros d r.
  assert (Hiff : forall b : bool, b = negb dynamic -> (b = true <-> dynamic = false)).
  { intros b ->. destruct dynamic; cbn; split; congruence. }
  split; [split; [reflexivity|apply Hiff; reflexivity]|].
  split; [|split; reflexivity].
  destruct (declare_parameter paramName (ParameterValue_of defValue) d (node e))
    as [n'|x] eqn:Hd.
  - pose proof (getParam_node paramName defValue outVal log_info dynamic e (snd r) (fst r)
                  (surjective_pairing r)) as Hnode.
    fold d in Hnode. rewrite Hd in Hnode.
    split; [exact Hnode|]. rewrite Hnode.
    cbn [declare_parameter Node_parameters] in Hd.
    destruct (Node_declare_parameter_Return _ _ _ _ _ Hd)
      as (Hfree & _ & pi & Hins & _ & Hro).
    exists pi. split; [exact Hfree|]. split; [exact Hins|].
    split; [rewrite Hins; apply lookup_insert_eq|].
    subst d. rewrite read_only_set_read_only in Hro.
    split; [exact Hro|apply Hiff; exact Hro].
  - subst r. apply getParam_declare_throws. exact Hd.
Qed.

(** C2, at a concrete call: on a fresh node the declaration of the frame
    rate returns, and the call that leaves [dynamic] out returns 30 and
    leaves the parameter registered read-only. *)
Lemma getParam_read_only_iff_not_dynamic_witness :
  let e := inputs.start inputs.fresh_node in
  let r := getParam_4 "general.grab_frame_rate" 30 30 " * Camera framerate: " e in
  fst r = Return 30
  /\ exists pi : ParameterInfo,
       parameters (node e) !! "general.grab_frame_rate"%string = None
       /\ parameters (node (snd r)) !! "general.grab_frame_rate"%string = Some pi
       /\ value pi = PARAMETER_INTEGER 30
       /\ read_only (descriptor pi) = true.
Proof.
  intros e r.
  pose proof (getParam_read_only_iff_not_dynamic Z _ "general.grab_frame_rate" 30 30
                " * Camera framerate: " false e) as Hcall.
  cbv zeta in Hcall. destruct Hcall as (_ & Hreg & _).
  assert (Hd : declare_parameter "general.grab_frame_rate" (ParameterValue_of 30)
                 (set_read_only ParameterDescriptor_init (negb false)) (node e)
               = Return (node (snd r))) by (vm_compute; reflexivity).
  rewrite Hd in Hreg.
  destruct Hreg as (_ & pi & Hfree & _ & Hpi & Hro & _).
  split; [vm_compute; reflexivity|].
  exists pi. split; [exact Hfree|]. split; [exact Hpi|]. split; [|exact Hro].
  assert (Hstored : parameters (node (snd r)) !! "general.grab_frame_rate"%string
                    = Some {| value := PARAMETER_INTEGER 30;
                              descriptor :=
                                set_name_type (set_read_only ParameterDescriptor_init true)
                                  "general.grab_frame_rate" TYPE_INTEGER |})
    by (vm_compute; reflexivity).
  assert (Heq : Some pi
                = Some {| value := PARAMETER_INTEGER 30;
                          descriptor :=
                            set_name_type (set_read_only ParameterDescriptor_init true)
                              "general.grab_frame_rate" TYPE_INTEGER |})
    by (rewrite <- Hpi; exact Hstored).
  inversion Heq. reflexivity.
Defined.

(* ================================================================== *)
(** ** The freshly constructed component *)
(* ================================================================== *)

(** C9.  Default member initialisation leaves [_connStatus] and
    [_grabStatus] at [sl::ERROR_CODE::LAST], which is not the success
    (Open) code, and [_tempImu] at the sentinel [NOT_VALID_TEMP], whatever
    the sentinel's value and whatever the members without initialiser
    hold: whoever reads these members before [startCamera] writes them
    sees a connection that is not Open and a temperature that is not
    valid. *)
Theorem status_before_camera_start (NOT_VALID_TEMP : float) (u : Indeterminate) :
  let z := default_member_init NOT_VALID_TEMP u in
  (_connStatus z = sl.LAST /\ _grabStatus z = sl.LAST)
  /\ (_connStatus z <> sl.SUCCESS /\ _grabStatus z <> sl.SUCCESS)
  /\ _tempImu z = NOT_VALID_TEMP.
Proof.
  intros z. subst z. cbn [default_member_init _connStatus _grabStatus _tempImu].
  split; [split; reflexivity|].
  split; [split; discriminate|].
  reflexivity.
Qed.

(** C10.  The configuration members of every freshly constructed instance:
    frame rate 30, resolution HD1080, native output resolution with
    downscale factor 1.0, no flip, no HDR, open timeout 5 s, SDK verbosity
    0, serial number 0, real-time SVO playback, stream port 10000. *)
Theorem construction_time_defaults (NOT_VALID_TEMP : float) (u : Indeterminate) :
  let z := default_member_init NOT_VALID_TEMP u in
  _camGrabFrameRate z = 30
  /\ _camResol z = sl.HD1080
  /\ (_pubResolution z = NATIVE /\ _customDownscaleFactor z = 1.0%float)
  /\ _cameraFlip z = false
  /\ _enableHDR z = false
  /\ _openTimeout_sec z = 5%float
  /\ _sdkVerbose z = 0
  /\ _camSerialNumber z = 0
  /\ _svoRealtime z = true
  /\ _streamPort z = 10000.
Proof.
  intros z. subst z.
  repeat match goal with |- _ /\ _ => split end; reflexivity.
Qed.

(** The defaults do not depend on the members left without initialiser. *)
Lemma default_member_init_parameters (NOT_VALID_TEMP : float) (u u' : Indeterminate) :
  let z := default_member_init NOT_VALID_TEMP u in
  let z' := default_member_init NOT_VALID_TEMP u' in
  _cameraName z = _cameraName z'
  /\ _camGrabFrameRate z = _camGrabFrameRate z'
  /\ _camResol z = _camResol z'
  /\ _gpuId z = _gpuId z'
  /\ _camUserModel z = _camUserModel z'
  /\ _streamPort z = _streamPort z'.
Proof.
  intros z z'. subst z z'.
  repeat match goal with |- _ /\ _ => split end; reflexivity.
Qed.

(** Loading a parameter the way the component's callers do, with the
    member as both default and output, on a node without an override for
    it: the member keeps its construction-time value. *)
Lemma getParam_without_override_keeps_default (paramName : string) (z : Z)
    (log_info : string) (dynamic : bool) (e : Env Node) :
  paramName <> EmptyString ->
  parameters (node e) !! paramName = None ->
  parameter_overrides (node e) !! paramName = None ->
  fst (getParam paramName z z log_info dynamic e) = Return (int_of_int64 z).
Proof.
  intros Hnm Hfree Hover.
  pose proof (Node_declare_parameter_fresh paramName (PARAMETER_INTEGER z)
                (set_read_only ParameterDescriptor_init (negb dynamic)) (node e)
                Hnm Hfree Hover eq_refl) as Hd.
  specialize (Hd ltac:(discriminate)).
  erewrite (getParam_lookup_true (N := Node) (T := Z)); [reflexivity|exact Hd| |].
  - cbn. unfold Node_get_parameter_variant. cbn. rewrite lookup_insert_eq. reflexivity.
  - reflexivity.
Qed.

Lemma int_of_int64_in_range (z : Z) :
  - 2 ^ 31 <= z < 2 ^ 31 -> int_of_int64 z = z.
Proof.
  intros Hz. unfold int_of_int64.
  rewrite Z.mod_small by lia. lia.
Qed.

(* ================================================================== *)
(** ** The reconfiguration gate *)
(* ================================================================== *)

Import reconfiguration.

Section GateProperties.

Variable in_range : string -> ParameterValue -> bool.

(** A change to a parameter registered read-only is rejected with
    [ReadOnly], whatever value is proposed. *)
Lemma validate_read_only (g : Gate) (nm : string) (v : ParameterValue) (pi : ParameterInfo) :
  parameters (subsystem g) !! nm = Some pi ->
  read_only (descriptor pi) = true ->
  validate in_range g nm v = Reject ReadOnly.
Proof.
  intros Hreg Hro. unfold validate. rewrite Hreg, Hro. reflexivity.
Qed.

(** A batch is rejected as soon as one of its changes is. *)
Lemma first_rejection_In (g : Gate) (ps : list Parameter_) (p : Parameter_) (r : RejectReason) :
  In p ps ->
  validate in_range g (get_name p) (get_parameter_value p) = Reject r ->
  exists r' : RejectReason, first_rejection in_range g ps = Some r'.
Proof.
  intros Hin Hrej. induction ps as [|q ps IH]; [destruct Hin|].
  cbn [first_rejection].
  destruct (validate in_range g (get_name q) (get_parameter_value q)) as [|rq] eqn:Hq.
  - destruct Hin as [-> | Hin].
    + rewrite Hrej in Hq. discriminate.
    + apply IH. exact Hin.
  - exists rq. reflexivity.
Qed.

(** The reason reported is that of the first change rejected. *)
Lemma first_rejection_accepted_prefix (g : Gate) (accepted rest : list Parameter_)
    (p : Parameter_) (r : RejectReason) :
  Forall (fun q => validate in_range g (get_name q) (get_parameter_value q) = Accept)
         accepted ->
  validate in_range g (get_name p) (get_parameter_value p) = Reject r ->
  first_rejection in_range g (accepted ++ p :: rest) = Some r.
Proof.
  intros Hacc Hrej. induction Hacc as [|q qs Hq _ IH]; cbn [app first_rejection].
  - rewrite Hrej. reflexivity.
  - rewrite Hq. exact IH.
Qed.

(** A rejected batch changes nothing, in the component or in the store. *)
Lemma callback_paramChange_rejected (g : Gate) (ps : list Parameter_) (r : RejectReason) :
  first_rejection in_range g ps = Some r ->
  callback_paramChange in_range ps g = ({| successful := false; reason := Some r |}, g)
  /\ set_parameters in_range ps g = ({| successful := false; reason := Some r |}, g).
Proof.
  intros Hrej. unfold set_parameters, callback_paramChange. rewrite Hrej. split; reflexivity.
Qed.

(** An accepted batch puts every proposed value in effect. *)
Lemma callback_paramChange_accepted (g : Gate) (ps : list Parameter_) :
  first_rejection in_range g ps = None ->
  callback_paramChange in_range ps g
  = ({| successful := true; reason := None |}, apply_all ps g).
Proof.
  intros Hacc. unfold callback_paramChange. rewrite Hacc. reflexivity.
Qed.

End GateProperties.

(** C7.  Let [p] be a proposed change, part of a batch [ps], to a parameter
    that the store holds with the read-only mark.  Then the gate's verdict
    on [p] is [Reject ReadOnly]; the callback rejects the batch and hands
    the state back unchanged, with reason [ReadOnly] when [p] is the first
    change it rejects (as when [p] is the whole batch); and after the
    request the value in effect and the stored entry are the previous
    ones. *)
Theorem read_only_change_is_rejected (in_range : string -> ParameterValue -> bool)
    (g : Gate) (p : Parameter_) (accepted rest : list Parameter_) (ps : list Parameter_)
    (pi : ParameterInfo) :
  parameters (subsystem g) !! get_name p = Some pi ->
  read_only (descriptor pi) = true ->
  In p ps ->
  Forall (fun q => validate in_range g (get_name q) (get_parameter_value q) = Accept)
         accepted ->
  validate in_range g (get_name p) (get_parameter_value p) = Reject ReadOnly
  /\ (successful (fst (callback_paramChange in_range ps g)) = false
      /\ snd (callback_paramChange in_range ps g) = g)
  /\ callback_paramChange in_range (accepted ++ p :: rest) g
     = ({| successful := false; reason := Some ReadOnly |}, g)
  /\ (snd (set_parameters in_range ps g) = g
      /\ DynamicParameterSet (snd (set_parameters in_range ps g)) !! get_name p
         = DynamicParameterSet g !! get_name p
      /\ parameters (subsystem (snd (set_parameters in_range ps g))) !! get_name p
         = Some pi).
Proof.
  intros Hreg Hro Hin Hacc.
  pose proof (validate_read_only in_range g (get_name p) (get_parameter_value p) pi Hreg Hro)
    as Hval.
  destruct (first_rejection_In in_range g ps p ReadOnly Hin Hval) as [r Hr].
  destruct (callback_paramChange_rejected in_range g ps r Hr) as [Hcb Hset].
  split; [exact Hval|]. split.
  - rewrite Hcb. split; reflexivity.
  - split.
    + apply callback_paramChange_rejected.
      apply first_rejection_accepted_prefix; assumption.
    + rewrite Hset. cbn [snd]. split; [reflexivity|]. split; [reflexivity|exact Hreg].
Qed.

(** Registration and rejection together: a parameter that [getParam] has
    declared with [dynamic = false] cannot be changed afterwards. *)
Lemma getParam_then_change_rejected (T : Type) (PT : ParameterT T)
    (in_range : string -> ParameterValue -> bool)
    (paramName : string) (defValue outVal t : T) (log_info : string)
    (e e' : Env Node) (dps : gmap string ParameterValue) (v : ParameterValue) :
  getParam paramName defValue outVal log_info false e = (Return t, e') ->
  callback_paramChange in_range [mkParameter paramName v] (mkGate (node e') dps)
  = ({| successful := false; reason := Some ReadOnly |}, mkGate (node e') dps).
Proof.
  intros Hrun.
  destruct (getParam_store T PT _ _ _ _ _ _ _ _ Hrun)
    as [[_ [x Hx]] | (pi & _ & Hins & _ & Hro)]; [discriminate|].
  apply callback_paramChange_rejected. cbn [first_rejection get_name get_parameter_value].
  erewrite validate_read_only; [reflexivity| |exact Hro].
  cbn [subsystem]. rewrite Hins. apply lookup_insert_eq.
Qed.

(* ================================================================== *)
(** ** The diagnostics aggregator *)
(* ================================================================== *)

Import diagnostics.

Lemma connection_open_iff (s : DiagnosticSnapshot) :
  connection_open s = true <-> connection_status s = sl.SUCCESS.
Proof.
  unfold connection_open. destruct (connection_status s); split; congruence.
Qed.

Lemma all_threads_alive_iff (s : DiagnosticSnapshot) :
  all_threads_alive s = true
  <-> grabThread_alive (observed s) = true
      /\ videoThread_alive (observed s) = true
      /\ sensThread_alive (observed s) = true.
Proof.
  unfold all_threads_alive. rewrite !andb_true_iff. tauto.
Qed.

Lemma stale_iff (staleness_threshold : Z) (s : DiagnosticSnapshot) :
  stale staleness_threshold s = true
  <-> staleness_threshold < frame_age (observed s)
      \/ staleness_threshold < temperature_age (observed s).
Proof.
  unfold stale. rewrite orb_true_iff, !Z.ltb_lt. tauto.
Qed.

(** The three outcomes, each with the condition that produces it. *)
Lemma classify_Error (staleness_threshold : Z) (s : DiagnosticSnapshot) :
  classify staleness_threshold s = Error
  <-> connection_open s = false \/ all_threads_alive s = false.
Proof.
  unfold classify.
  destruct (connection_open s), (all_threads_alive s), (stale staleness_threshold s);
    cbn; split; intros; try discriminate; auto; intuition discriminate.
Qed.

Lemma classify_Warn (staleness_threshold : Z) (s : DiagnosticSnapshot) :
  classify staleness_threshold s = Warn
  <-> connection_open s = true /\ all_threads_alive s = true
      /\ stale staleness_threshold s = true.
Proof.
  unfold classify.
  destruct (connection_open s), (all_threads_alive s), (stale staleness_threshold s);
    cbn; split; intros; try discriminate; auto; intuition discriminate.
Qed.

Lemma classify_OK (staleness_threshold : Z) (s : DiagnosticSnapshot) :
  classify staleness_threshold s = OK
  <-> connection_open s = true /\ all_threads_alive s = true
      /\ stale staleness_threshold s = false.
Proof.
  unfold classify.
  destruct (connection_open s), (all_threads_alive s), (stale staleness_threshold s);
    cbn; split; intros; try discriminate; auto; intuition discriminate.
Qed.

Lemma connection_open_false_iff (s : DiagnosticSnapshot) :
  connection_open s = false <-> connection_status s <> sl.SUCCESS.
Proof.
  rewrite <- connection_open_iff. destruct (connection_open s); split; congruence.
Qed.

Lemma all_threads_alive_false_iff (s : DiagnosticSnapshot) :
  all_threads_alive s = false
  <-> grabThread_alive (observed s) = false
      \/ videoThread_alive (observed s) = false
      \/ sensThread_alive (observed s) = false.
Proof.
  unfold all_threads_alive. rewrite !andb_false_iff. tauto.
Qed.

Lemma stale_false_iff (staleness_threshold : Z) (s : DiagnosticSnapshot) :
  stale staleness_threshold s = false
  <-> frame_age (observed s) <= staleness_threshold
      /\ temperature_age (observed s) <= staleness_threshold.
Proof.
  unfold stale. rewrite orb_false_iff, !Z.ltb_ge. tauto.
Qed.

(** The snapshot reads the component and nothing else. *)
Lemma snapshot_reads (z : ZedCameraOne) (o : Observed) :
  connection_status (snapshot z o) = _connStatus z
  /\ grab_status (snapshot z o) = _grabStatus z
  /\ temperature (snapshot z o) = _tempImu z
  /\ observed (snapshot z o) = o.
Proof. unfold snapshot. cbn. auto. Qed.

(** C8.  A diagnostic request yields one health value.  It is [Error]
    exactly when the connection status is not the Open (success) code or
    one of the three worker threads is not alive; [Warn] exactly when
    neither holds and the frame age or the temperature age exceeds the
    staleness threshold; [OK] exactly in the remaining case.  The three
    conditions exclude each other and cover every request, and the
    component comes back as it was. *)
Theorem callback_updateDiagnostic_classifies (staleness_threshold : Z) (o : Observed)
    (z : ZedCameraOne) :
  let out := callback_updateDiagnostic staleness_threshold o z in
  let health := snd (fst out) in
  let broken :=
    _connStatus z <> sl.SUCCESS
    \/ grabThread_alive o = false \/ videoThread_alive o = false
    \/ sensThread_alive o = false in
  let aged :=
    staleness_threshold < frame_age o \/ staleness_threshold < temperature_age o in
  (health = OK \/ health = Warn \/ health = Error)
  /\ (health = Error <-> broken)
  /\ (health = Warn <-> ~ broken /\ aged)
  /\ (health = OK <-> ~ broken /\ ~ aged)
  /\ fst (fst out) = snapshot z o
  /\ snd out = z.
Proof.
  intros out health broken aged.
  subst out health. cbn [callback_updateDiagnostic fst snd].
  set (s := snapshot z o).
  assert (Hbroken : broken <-> connection_open s = false \/ all_threads_alive s = false).
  { subst broken. rewrite connection_open_false_iff, all_threads_alive_false_iff.
    subst s. cbn. tauto. }
  assert (Hsound : ~ broken <-> connection_open s = true /\ all_threads_alive s = true).
  { rewrite Hbroken.
    destruct (connection_open s), (all_threads_alive s); intuition congruence. }
  assert (Haged : aged <-> stale staleness_threshold s = true).
  { subst aged. rewrite stale_iff. subst s. cbn. tauto. }
  assert (Hfresh : ~ aged <-> stale staleness_threshold s = false).
  { rewrite Haged. destruct (stale staleness_threshold s); intuition congruence. }
  split; [destruct (classify staleness_threshold s); auto|].
  split; [rewrite Hbroken; apply classify_Error|].
  split; [rewrite Hsound, Haged, classify_Warn; tauto|].
  split; [rewrite Hsound, Hfresh, classify_OK; tauto|].
  split; reflexivity.
Qed.

(** The checks of section 8 of the spec, with the fields it leaves
    unmentioned made explicit. *)
Lemma diagnostic_fresh_frame_is_OK (staleness_threshold : Z) (s : DiagnosticSnapshot) :
  0 <= staleness_threshold ->
  connection_status s = sl.SUCCESS ->
  all_threads_alive s = true ->
  frame_age (observed s) = 0 ->
  temperature_age (observed s) <= staleness_threshold ->
  classify staleness_threshold s = OK.
Proof.
  intros Hthr Hopen Halive Hframe Htemp. apply classify_OK.
  split; [apply connection_open_iff; exact Hopen|]. split; [exact Halive|].
  apply stale_false_iff. lia.
Qed.

Lemma diagnostic_not_open_is_Error (staleness_threshold : Z) (s : DiagnosticSnapshot) :
  connection_status s <> sl.SUCCESS ->
  classify staleness_threshold s = Error.
Proof.
  intros Hconn. apply classify_Error. left. apply connection_open_false_iff. exact Hconn.
Qed.

Lemma diagnostic_stale_frame_is_Warn (staleness_threshold : Z) (s : DiagnosticSnapshot) :
  connection_status s = sl.SUCCESS ->
  all_threads_alive s = true ->
  staleness_threshold < frame_age (observed s) ->
  classify staleness_threshold s = Warn.
Proof.
  intros Hopen Halive Hframe. apply classify_Warn.
  split; [apply connection_open_iff; exact Hopen|]. split; [exact Halive|].
  apply stale_iff. left. exact Hframe.
Qed.

(** Before startup the snapshot shows a closed connection and the
    temperature sentinel, and the health is [Error]. *)
Lemma snapshot_before_camera_start (NOT_VALID_TEMP : float) (u : Indeterminate)
    (staleness_threshold : Z) (o : Observed) :
  let s := snapshot (default_member_init NOT_VALID_TEMP u) o in
  connection_open s = false
  /\ temperature s = NOT_VALID_TEMP
  /\ classify staleness_threshold s = Error.
Proof.
  intros s. split; [reflexivity|]. split; [reflexivity|].
  apply classify_Error. left. reflexivity.
Qed.

(** C7, at a concrete request: the frame rate, declared read-only, is asked
    to become 60 in a batch of one. *)
Lemma read_only_change_is_rejected_witness :
  let e := snd (getParam_4 "general.grab_frame_rate" 30 30 " * Camera framerate: "
                  (inputs.start inputs.fresh_node)) in
  let g := mkGate (node e) ∅ in
  let p := mkParameter "general.grab_frame_rate" (PARAMETER_INTEGER 60) in
  validate inputs.any_range g (get_name p) (get_parameter_value p) = Reject ReadOnly
  /\ callback_paramChange inputs.any_range [p] g
     = ({| successful := false; reason := Some ReadOnly |}, g)
  /\ get_parameter (T := Z) "general.grab_frame_rate"
       (subsystem (snd (set_parameters inputs.any_range [p] g))) = Return (Some 30).
Proof.
  intros e g p.
  destruct (read_only_change_is_rejected inputs.any_range g p [] [] [p]
              {| value := PARAMETER_INTEGER 30;
                 descriptor :=
                   set_name_type (set_read_only ParameterDescriptor_init true)
                     "general.grab_frame_rate" TYPE_INTEGER |})
    as (Hval & _ & Hcb & Hset & _ & _).
  - vm_compute. reflexivity.
  - reflexivity.
  - left. reflexivity.
  - constructor.
  - split; [exact Hval|]. split; [exact Hcb|].
    rewrite Hset. vm_compute. reflexivity.
Defined.

(* ================================================================== *)
(** ** Worked calls *)
(* ================================================================== *)

Import inputs.

(** No override: the default is declared, read back and logged. *)
Example getParam_declares_default :
  getParam "general.grab_frame_rate" 30 30 " * Camera framerate: " false (start fresh_node)
  = (Return 30,
     mkEnv
       {| parameters :=
            {[ "general.grab_frame_rate"%string :=
                 {| value := PARAMETER_INTEGER 30;
                    descriptor :=
                      {| name := "general.grab_frame_rate";
                         type := TYPE_INTEGER;
                         description := "";
                         additional_constraints := "";
                         read_only := true;
                         dynamic_typing := false |} |} ]};
          parameter_overrides := ∅ |}
       [ mkLogRecord INFO [ Text " * Camera framerate: "; Value (PARAMETER_INTEGER 30) ] ]).
Proof. vm_compute. reflexivity. Qed.

(** An override wins over the default. *)
Example getParam_reads_override :
  fst (getParam "general.grab_frame_rate" 30 30 "" false (start override_node))
  = Return 15.
Proof. vm_compute. reflexivity. Qed.

(** Declaring a name twice throws, and the second call changes nothing. *)
Example getParam_twice_throws :
  let e := snd (getParam_3 "general.grab_frame_rate" 30 30 (start fresh_node)) in
  getParam_3 "general.grab_frame_rate" 30 30 e
  = (Throw ParameterAlreadyDeclaredException, e).
Proof. vm_compute. reflexivity. Qed.

(** An override of another type than the default makes the declaration
    throw. *)
Example getParam_override_of_other_type :
  getParam "general.grab_frame_rate" true true "" false (start override_node)
  = (Throw InvalidParameterTypeException, start override_node).
Proof. vm_compute. reflexivity. Qed.

(** A parameter declared dynamic can be changed: the gate accepts a value
    of the registered type and puts it in effect. *)
Example dynamic_change_accepted :
  let e := snd (getParam "video.brightness" 4 4 "" true (start fresh_node)) in
  let g := mkGate (node e) ∅ in
  let p := mkParameter "video.brightness" (PARAMETER_INTEGER 6) in
  fst (callback_paramChange any_range [p] g)
  = {| successful := true; reason := None |}
  /\ DynamicParameterSet (snd (callback_paramChange any_range [p] g))
       !! "video.brightness"%string
     = Some (PARAMETER_INTEGER 6)
  /\ callback_paramChange any_range [mkParameter "video.brightness" (PARAMETER_BOOL true)] g
     = ({| successful := false; reason := Some InvalidValue |}, g).
Proof.
  intros e g p. split; [|split]; vm_compute; reflexivity.
Qed.

(** A fresh instance with the sentinel at [-273.15f]: any diagnostic
    request answers [Error]. *)
Example fresh_instance_is_Error :
  let z := default_member_init absolute_zero no_members in
  snd (fst (callback_updateDiagnostic 1000000000
              (mkObserved true true true 0 0) z)) = Error
  /\ _tempImu z = absolute_zero.
Proof. intros z. split; reflexivity. Qed.

(** An open camera with live threads: fresh data is [OK], an old frame is
    [Warn], a dead thread is [Error]. *)
Example classify_three_ways :
  let s o := mkDiagnosticSnapshot sl.SUCCESS sl.SUCCESS 40%float o in
  classify 100 (s (mkObserved true true true 0 0)) = OK
  /\ classify 100 (s (mkObserved true true true 101 0)) = Warn
  /\ classify 100 (s (mkObserved true false true 0 0)) = Error.
Proof. intros s. split; [|split]; reflexivity. Qed.

(* ================================================================== *)
(** ** [getParam] on any node *)
(* ================================================================== *)

Section AnyNodeBehaviour.

Context {N : Type} `{NodeParametersInterface N} {T : Type} `{ParameterT T}.

Variables (paramName : string) (defValue outVal : T) (log_info : string) (dynamic : bool).

Local Abbreviation descriptor := (set_read_only ParameterDescriptor_init (negb dynamic)).
Local Abbreviation run e := (getParam paramName defValue outVal log_info dynamic e).

(** The four ways through [getParam], by what the two node calls answer. *)
Lemma getParam_cases (e : Env N) :
  match declare_parameter paramName (ParameterValue_of defValue) descriptor (node e) with
  | Throw x => run e = (Throw x, e)
  | Return n' =>
      match get_parameter_variant paramName n' with
      | None =>
          run e = (Return outVal,
                   mkEnv n' ((logger e ++ [warning_record paramName defValue])
                             ++ info_records log_info outVal))
      | Some v =>
          match get_value (T := T) v with
          | Return t => run e = (Return t, mkEnv n' (logger e ++ info_records log_info t))
          | Throw x => run e = (Throw x, mkEnv n' (logger e))
          end
      end
  end.
Proof.
  destruct (declare_parameter paramName (ParameterValue_of defValue) descriptor (node e))
    as [n'|x] eqn:Hd.
  - destruct (get_parameter_variant paramName n') as [v|] eqn:Hg.
    + destruct (get_value (T := T) v) as [t|x] eqn:Hv.
      * apply getParam_lookup_true with (v := v); assumption.
      * apply getParam_conversion_throws with (v := v); assumption.
    + apply getParam_lookup_false; assumption.
  - apply getParam_declare_throws; assumption.
Qed.

(** X1.  Whatever the node and the value type: when the declaration
    returns and the lookup answers [false], [getParam] hands back the value
    the caller's variable already held, on the node the declaration
    produced, after logging the warning that names the default (and the
    info record, if asked for).  The default itself is not assigned. *)
Theorem getParam_failed_lookup_any_node (e : Env N) (n' : N) :
  declare_parameter paramName (ParameterValue_of defValue) descriptor (node e) = Return n' ->
  get_parameter_variant paramName n' = None ->
  fst (run e) = Return outVal
  /\ node (snd (run e)) = n'
  /\ logger (snd (run e))
     = logger e ++ warning_record paramName defValue :: info_records log_info outVal.
Proof.
  intros Hd Hg. pose proof (getParam_cases e) as Hc. rewrite Hd, Hg in Hc.
  rewrite Hc. cbn [fst snd node logger].
  split; [reflexivity|]. split; [reflexivity|].
  rewrite <- app_assoc. reflexivity.
Qed.

(** X2.  [getParam] only appends to the log, and what it appends is fixed
    by the outcome: nothing when it throws; when it returns [t], the info
    record for [t] (none if [log_info] is empty), preceded by the warning
    exactly when the lookup failed, in which case [t] is the incoming
    [outVal]. *)
Theorem getParam_log_discipline (e : Env N) :
  exists delta : list LogRecord,
    logger (snd (run e)) = logger e ++ delta
    /\ match fst (run e) with
       | Throw _ => delta = []
       | Return t =>
           (delta = info_records log_info t
            /\ get_parameter paramName (node (snd (run e))) = Return (Some t))
           \/ (delta = warning_record paramName defValue :: info_records log_info t
               /\ get_parameter (T := T) paramName (node (snd (run e))) = Return None
               /\ t = outVal)
       end.
Proof.
  pose proof (getParam_cases e) as Hc.
  destruct (declare_parameter paramName (ParameterValue_of defValue) descriptor (node e))
    as [n'|x] eqn:Hd.
  - destruct (get_parameter_variant paramName n') as [v|] eqn:Hg.
    + destruct (get_value (T := T) v) as [t|x] eqn:Hv; rewrite Hc; cbn [fst snd node logger].
      * exists (info_records log_info t). split; [reflexivity|]. left.
        split; [reflexivity|]. unfold get_parameter. rewrite Hg, Hv. reflexivity.
      * exists []. rewrite app_nil_r. split; reflexivity.
    + rewrite Hc; cbn [fst snd node logger].
      exists (warning_record paramName defValue :: info_records log_info outVal).
      split; [rewrite <- app_assoc; reflexivity|]. right.
      split; [reflexivity|]. split; [|reflexivity].
      unfold get_parameter. rewrite Hg. reflexivity.
  - rewrite Hc; cbn [fst snd node logger].
    exists []. rewrite app_nil_r. split; reflexivity.
Qed.


End AnyNodeBehaviour.

(** X1, at the frame rate of a node whose override holds no value. *)
Lemma getParam_failed_lookup_any_node_witness :
  let e := start unset_override_node in
  let r := getParam "general.grab_frame_rate" 30 15 " * Camera framerate: " false e in
  fst r = Return 15
  /\ node (snd r) = node (snd r)
  /\ logger (snd r)
     = logger e ++ warning_record "general.grab_frame_rate" 30
                   :: info_records " * Camera framerate: " 15.
Proof.
  intros e r.
  apply (getParam_failed_lookup_any_node "general.grab_frame_rate" 30 15
           " * Camera framerate: " false e (node (snd r))).
  - vm_compute. reflexivity.
  - vm_compute. reflexivity.
Defined.


(** X4.  [log_info] decides what is logged and nothing else: two calls
    that differ only in [log_info] return the same value (or throw the
    same exception) and leave the same node. *)
Theorem getParam_log_info_only_logs {N : Type} `{NodeParametersInterface N}
    {T : Type} `{ParameterT T}
    (paramName : string) (defValue outVal : T) (log_info log_info' : string)
    (dynamic : bool) (e : Env N) :
  fst (getParam paramName defValue outVal log_info dynamic e)
  = fst (getParam paramName defValue outVal log_info' dynamic e)
  /\ node (snd (getParam paramName defValue outVal log_info dynamic e))
     = node (snd (getParam paramName defValue outVal log_info' dynamic e)).
Proof.
  pose proof (getParam_cases paramName defValue outVal log_info dynamic e) as Hc.
  pose proof (getParam_cases paramName defValue outVal log_info' dynamic e) as Hc'.
  destruct (declare_parameter paramName (ParameterValue_of defValue)
              (set_read_only ParameterDescriptor_init (negb dynamic)) (node e)) as [n'|x].
  - destruct (get_parameter_variant paramName n') as [v|].
    + destruct (get_value (T := T) v) as [t|x]; rewrite Hc, Hc'; split; reflexivity.
    + rewrite Hc, Hc'; split; reflexivity.
  - rewrite Hc, Hc'; split; reflexivity.
Qed.

(* ================================================================== *)
(** ** [getParam] on the reference store *)
(* ================================================================== *)

(** What decides a declaration: the name, the default, the descriptor, and
    the entry and the override the store holds under that name. *)
Lemma Node_declare_parameter_local (nm : string) (v : ParameterValue)
    (d : ParameterDescriptor) (n1 n2 : Node) :
  parameters n1 !! nm = parameters n2 !! nm ->
  parameter_overrides n1 !! nm = parameter_overrides n2 !! nm ->
  match Node_declare_parameter nm v d n1, Node_declare_parameter nm v d n2 with
  | Return a, Return b =>
      exists pi : ParameterInfo,
        parameters n1 !! nm = None
        /\ parameters a = <[nm := pi]> (parameters n1)
        /\ parameters b = <[nm := pi]> (parameters n2)
        /\ parameter_overrides a = parameter_overrides n1
        /\ parameter_overrides b = parameter_overrides n2
  | Throw x, Throw y => x = y
  | _, _ => False
  end.
Proof.
  intros Hp Ho. unfold Node_declare_parameter. rewrite <- Hp, <- Ho.
  destruct (string_empty nm); [reflexivity|].
  destruct (parameters n1 !! nm) eqn:Hfree; [reflexivity|].
  destruct (negb (dynamic_typing d) && _); [reflexivity|].
  destruct (negb (dynamic_typing d) && _ && _); [reflexivity|].
  eexists. cbn. repeat (split; [reflexivity|]). reflexivity.
Qed.

(** The lookup reads the entry under the name and nothing else. *)
Lemma Node_get_parameter_variant_local (nm : string) (n1 n2 : Node) :
  parameters n1 !! nm = parameters n2 !! nm ->
  Node_get_parameter_variant nm n1 = Node_get_parameter_variant nm n2.
Proof. intros Hp. unfold Node_get_parameter_variant. rewrite Hp. reflexivity. Qed.

(** A declaration that returns was given a name that is not empty. *)
Lemma Node_declare_parameter_Return_name (nm : string) (v : ParameterValue)
    (d : ParameterDescriptor) (n n' : Node) :
  Node_declare_parameter nm v d n = Return n' -> string_empty nm = false.
Proof.
  unfold Node_declare_parameter. destruct (string_empty nm); [discriminate|reflexivity].
Qed.

(** A declared name cannot be declared again. *)
Lemma Node_declare_parameter_again (nm : string) (v : ParameterValue)
    (d : ParameterDescriptor) (n : Node) (pi : ParameterInfo) :
  string_empty nm = false ->
  parameters n !! nm = Some pi ->
  Node_declare_parameter nm v d n = Throw ParameterAlreadyDeclaredException.
Proof.
  intros Hnm Hdecl. unfold Node_declare_parameter. rewrite Hnm, Hdecl. reflexivity.
Qed.

(** Two runs of one call on stores that agree under [paramName]: either
    both throw out of the declaration and change nothing, or both declare
    the same entry; the result and the records logged are the same. *)
Lemma getParam_local_runs (T : Type) (PT : ParameterT T)
    (paramName : string) (defValue outVal : T) (log_info : string) (dynamic : bool)
    (e1 e2 : Env Node) :
  parameters (node e1) !! paramName = parameters (node e2) !! paramName ->
  parameter_overrides (node e1) !! paramName
  = parameter_overrides (node e2) !! paramName ->
  let r1 := getParam paramName defValue outVal log_info dynamic e1 in
  let r2 := getParam paramName defValue outVal log_info dynamic e2 in
  fst r1 = fst r2
  /\ (exists delta : list LogRecord,
        logger (snd r1) = logger e1 ++ delta /\ logger (snd r2) = logger e2 ++ delta)
  /\ ((exists x : exception, fst r1 = Throw x /\ node (snd r1) = node e1
                             /\ node (snd r2) = node e2)
      \/ (exists pi : ParameterInfo,
            parameters (node e1) !! paramName = None
            /\ parameters (node (snd r1)) = <[paramName := pi]> (parameters (node e1))
            /\ parameters (node (snd r2)) = <[paramName := pi]> (parameters (node e2))
            /\ parameter_overrides (node (snd r1)) = parameter_overrides (node e1)
            /\ parameter_overrides (node (snd r2)) = parameter_overrides (node e2))).
Proof.
  intros Hp Ho r1 r2. subst r1 r2.
  pose proof (getParam_cases paramName defValue outVal log_info dynamic e1) as H1.
  pose proof (getParam_cases paramName defValue outVal log_info dynamic e2) as H2.
  pose proof (Node_declare_parameter_local paramName (ParameterValue_of defValue)
                (set_read_only ParameterDescriptor_init (negb dynamic))
                (node e1) (node e2) Hp Ho) as Hd.
  cbn [declare_parameter get_parameter_variant Node_parameters] in H1, H2.
  destruct (Node_declare_parameter paramName (ParameterValue_of defValue)
              (set_read_only ParameterDescriptor_init (negb dynamic)) (node e1))
    as [a|x];
  destruct (Node_declare_parameter paramName (ParameterValue_of defValue)
              (set_read_only ParameterDescriptor_init (negb dynamic)) (node e2))
    as [b|y]; try contradiction.
  - destruct Hd as (pi & Hfree & Ha & Hb & Hoa & Hob).
    assert (Hg : Node_get_parameter_variant paramName a
                 = Node_get_parameter_variant paramName b).
    { apply Node_get_parameter_variant_local. rewrite Ha, Hb, !lookup_insert_eq.
      reflexivity. }
    rewrite <- Hg in H2.
    destruct (Node_get_parameter_variant paramName a) as [v|].
    + destruct (get_value (T := T) v) as [t|x]; rewrite H1, H2; cbn [fst snd node logger].
      * split; [reflexivity|]. split; [eexists; split; reflexivity|].
        right. exists pi. auto.
      * split; [reflexivity|]. split; [exists []; rewrite !app_nil_r; split; reflexivity|].
        right. exists pi. auto.
    + rewrite H1, H2; cbn [fst snd node logger].
      split; [reflexivity|]. split; [eexists; rewrite <- !app_assoc; split; reflexivity|].
      right. exists pi. auto.
  - subst y. rewrite H1, H2; cbn [fst snd node logger].
    split; [reflexivity|]. split; [exists []; rewrite !app_nil_r; split; reflexivity|].
    left. exists x. auto.
Qed.

(** X5.  A call never disturbs what the store already holds: the
    overrides are untouched, every entry present before the call is
    present and equal after it (also under [paramName] itself, and also
    when the call throws), and the only name that can gain an entry is
    [paramName]. *)
Theorem getParam_store_only_grows (T : Type) (PT : ParameterT T)
    (paramName : string) (defValue outVal : T) (log_info : string) (dynamic : bool)
    (e : Env Node) :
  let e' := snd (getParam paramName defValue outVal log_info dynamic e) in
  parameter_overrides (node e') = parameter_overrides (node e)
  /\ (forall (nm : string) (pi : ParameterInfo),
        parameters (node e) !! nm = Some pi -> parameters (node e') !! nm = Some pi)
  /\ (forall nm : string,
        nm <> paramName -> parameters (node e') !! nm = parameters (node e) !! nm).
Proof.
  intros e'. subst e'.
  destruct (getParam_local_runs T PT paramName defValue outVal log_info dynamic e e
              eq_refl eq_refl)
    as (_ & _ & [(x & _ & Hn & _) | (pi & Hfree & Hins & _ & Hov & _)]).
  - rewrite Hn. auto.
  - split; [exact Hov|]. rewrite Hins. split.
    + intros nm pi' Hnm. destruct (decide (paramName = nm)) as [->|Hne].
      * rewrite Hfree in Hnm. discriminate.
      * rewrite lookup_insert_ne by exact Hne. exact Hnm.
    + intros nm Hne. apply lookup_insert_ne. congruence.
Qed.

(** X6.  A parameter is loaded once.  After a call that returned, any
    further call of [getParam] under the same name (whatever its value
    type, default, flag or log text) throws
    [ParameterAlreadyDeclaredException] and leaves store and log as they
    were: the value and the read-only mark of the first call stand. *)
Theorem getParam_second_call_throws (T : Type) (PT : ParameterT T)
    (T' : Type) (PT' : ParameterT T')
    (paramName : string) (defValue outVal t : T) (log_info : string) (dynamic : bool)
    (defValue' outVal' : T') (log_info' : string) (dynamic' : bool)
    (e e1 : Env Node) :
  getParam paramName defValue outVal log_info dynamic e = (Return t, e1) ->
  getParam paramName defValue' outVal' log_info' dynamic' e1
  = (Throw ParameterAlreadyDeclaredException, e1).
Proof.
  intros Hrun.
  pose proof (getParam_cases paramName defValue outVal log_info dynamic e) as Hc.
  cbn [declare_parameter get_parameter_variant Node_parameters] in Hc.
  destruct (Node_declare_parameter paramName (ParameterValue_of defValue)
              (set_read_only ParameterDescriptor_init (negb dynamic)) (node e))
    as [n'|x] eqn:Hd.
  - assert (Hnode : node e1 = n').
    { destruct (Node_get_parameter_variant paramName n') as [v|].
      - destruct (get_value (T := T) v); rewrite Hc in Hrun; inversion Hrun; reflexivity.
      - rewrite Hc in Hrun; inversion Hrun; reflexivity. }
    pose proof (Node_declare_parameter_Return_name _ _ _ _ _ Hd) as Hnm.
    destruct (Node_declare_parameter_Return _ _ _ _ _ Hd) as (_ & _ & pi & Hins & _).
    apply getParam_declare_throws. cbn [declare_parameter Node_parameters].
    apply Node_declare_parameter_again with (pi := pi); [exact Hnm|].
    rewrite Hnode, Hins. apply lookup_insert_eq.
  - rewrite Hc in Hrun. discriminate.
Qed.

(** X6, at the frame rate: declared as an integer, then asked for again as
    a dynamic boolean. *)
Lemma getParam_second_call_throws_witness :
  let r := getParam_4 "general.grab_frame_rate" 30 30 " * Camera framerate: "
             (start fresh_node) in
  getParam "general.grab_frame_rate" true false "" true (snd r)
  = (Throw ParameterAlreadyDeclaredException, snd r).
Proof.
  intros r.
  apply (getParam_second_call_throws Z _ bool _ "general.grab_frame_rate" 30 30 30
           " * Camera framerate: " false true false "" true (start fresh_node) (snd r)).
  vm_compute. reflexivity.
Defined.

(** X7.  Declare, then read back.  Under a fresh, non-empty name without
    an override, and for a default that converts back to itself,
    [getParam] returns the default whatever the variable held, stores it,
    and logs no warning. *)
Theorem getParam_round_trip_default (T : Type) (PT : ParameterT T)
    (paramName : string) (defValue outVal : T) (log_info : string) (dynamic : bool)
    (e : Env Node) :
  paramName <> EmptyString ->
  parameters (node e) !! paramName = None ->
  parameter_overrides (node e) !! paramName = None ->
  ParameterValue_of defValue <> PARAMETER_NOT_SET ->
  get_value (ParameterValue_of defValue) = Return defValue ->
  let r := getParam paramName defValue outVal log_info dynamic e in
  fst r = Return defValue
  /\ get_parameter paramName (node (snd r)) = Return (Some defValue)
  /\ value <$> parameters (node (snd r)) !! paramName = Some (ParameterValue_of defValue)
  /\ logger (snd r) = logger e ++ info_records log_info defValue.
Proof.
  intros Hnm Hfree Hover Hset Hconv r. subst r.
  pose proof (Node_declare_parameter_fresh paramName (ParameterValue_of defValue)
                (set_read_only ParameterDescriptor_init (negb dynamic)) (node e)
                Hnm Hfree Hover eq_refl Hset) as Hd.
  assert (Hg : get_parameter_variant paramName
                 {| parameters :=
                      <[paramName := {| value := ParameterValue_of defValue;
                                        descriptor :=
                                          set_name_type
                                            (set_read_only ParameterDescriptor_init
                                               (negb dynamic))
                                            paramName
                                            (get_type (ParameterValue_of defValue)) |}]>
                        (parameters (node e));
                    parameter_overrides := parameter_overrides (node e) |}
               = Some (ParameterValue_of defValue)).
  { cbn. unfold Node_get_parameter_variant. cbn. rewrite lookup_insert_eq. cbn.
    destruct (ParameterValue_of defValue); try reflexivity. contradiction. }
  erewrite (getParam_lookup_true (N := Node) (T := T));
    [|exact Hd|exact Hg|exact Hconv].
  cbn [fst snd node logger].
  split; [reflexivity|]. split; [|split; [|reflexivity]].
  - unfold get_parameter. rewrite Hg, Hconv. reflexivity.
  - cbn. rewrite lookup_insert_eq. reflexivity.
Qed.

(** The defaults that convert back to themselves: every [bool],
    [std::string] and [double], and every [int] in the 32-bit range. *)
Lemma get_value_ParameterValue_of :
  (forall b : bool, get_value (ParameterValue_of b) = Return b)
  /\ (forall s : string, get_value (ParameterValue_of s) = Return s)
  /\ (forall d : float, get_value (ParameterValue_of d) = Return d)
  /\ (forall z : Z, - 2 ^ 31 <= z < 2 ^ 31 -> get_value (ParameterValue_of z) = Return z).
Proof.
  split; [reflexivity|]. split; [reflexivity|]. split; [reflexivity|].
  intros z Hz. cbn. rewrite int_of_int64_in_range by exact Hz. reflexivity.
Qed.

(** X7, at the stream port: the variable held 0, the default 10000 comes
    back. *)
Lemma getParam_round_trip_default_witness :
  let r := getParam "stream.stream_port" 10000 0 "" false (start fresh_node) in
  fst r = Return 10000
  /\ get_parameter "stream.stream_port" (node (snd r)) = Return (Some 10000)
  /\ value <$> parameters (node (snd r)) !! "stream.stream_port"%string
     = Some (ParameterValue_of 10000)
  /\ logger (snd r) = logger (start fresh_node) ++ info_records "" 10000.
Proof.
  apply (getParam_round_trip_default Z _ "stream.stream_port" 10000 0 "" false
           (start fresh_node)).
  - discriminate.
  - reflexivity.
  - reflexivity.
  - discriminate.
  - reflexivity.
Defined.

Lemma ParameterType_eqb_eq (a b : ParameterType) :
  ParameterType_eqb a b = true <-> a = b.
Proof. destruct a, b; cbn; split; congruence. Qed.

Lemma get_type_NOT_SET (v : ParameterValue) :
  get_type v = TYPE_NOT_SET <-> v = PARAMETER_NOT_SET.
Proof. destruct v; cbn; split; congruence. Qed.

(** A statically typed declaration under a fresh name with an override of
    the default's type stores the override. *)
Lemma Node_declare_parameter_override (nm : string) (v o : ParameterValue)
    (d : ParameterDescriptor) (n : Node) :
  nm <> EmptyString ->
  parameters n !! nm = None ->
  parameter_overrides n !! nm = Some o ->
  dynamic_typing d = false ->
  get_type o = get_type v ->
  get_type o <> TYPE_NOT_SET ->
  Node_declare_parameter nm v d n
  = Return {| parameters := <[nm := {| value := o;
                                       descriptor := set_name_type d nm (get_type v) |}]>
                              (parameters n);
              parameter_overrides := parameter_overrides n |}.
Proof.
  intros Hnm Hfree Hover Hdyn Hty Hset. unfold Node_declare_parameter.
  destruct (string_empty nm) eqn:He.
  - apply string_empty_iff in He. contradiction.
  - rewrite Hfree, Hover, Hdyn. cbn [negb andb]. rewrite Hty in *.
    destruct (ParameterType_eqb (get_type v) TYPE_NOT_SET) eqn:Hns.
    + apply ParameterType_eqb_eq in Hns. contradiction.
    + cbn [negb andb].
      destruct (ParameterType_eqb (get_type v) (get_type v)) eqn:Hsame; [reflexivity|].
      assert (ParameterType_eqb (get_type v) (get_type v) = true) as Hrefl
        by (apply ParameterType_eqb_eq; reflexivity).
      congruence.
Qed.

(** Looking up a name right after an entry with a value was put under it. *)
Lemma Node_get_parameter_variant_insert (nm : string) (pi : ParameterInfo)
    (m : gmap string ParameterInfo) (ov : gmap string ParameterValue) :
  value pi <> PARAMETER_NOT_SET ->
  Node_get_parameter_variant nm {| parameters := <[nm := pi]> m; parameter_overrides := ov |}
  = Some (value pi).
Proof.
  intros Hset. unfold Node_get_parameter_variant. cbn [parameters].
  rewrite lookup_insert_eq. destruct (value pi); congruence.
Qed.

(** X8.  An override of the default's type wins.  Under a fresh, non-empty
    name, [getParam] stores the override and returns its conversion (or
    throws what the conversion throws); neither the default's value nor
    what the variable held plays a part. *)
Theorem getParam_override_wins (T : Type) (PT : ParameterT T)
    (paramName : string) (defValue outVal : T) (log_info : string) (dynamic : bool)
    (e : Env Node) (o : ParameterValue) :
  paramName <> EmptyString ->
  parameters (node e) !! paramName = None ->
  parameter_overrides (node e) !! paramName = Some o ->
  get_type o = get_type (ParameterValue_of defValue) ->
  get_type o <> TYPE_NOT_SET ->
  let r := getParam paramName defValue outVal log_info dynamic e in
  fst r = get_value o
  /\ value <$> parameters (node (snd r)) !! paramName = Some o
  /\ (forall t : T, fst r = Return t -> logger (snd r) = logger e ++ info_records log_info t).
Proof.
  intros Hnm Hfree Hover Hty Hset r. subst r.
  pose proof (Node_declare_parameter_override paramName (ParameterValue_of defValue) o
                (set_read_only ParameterDescriptor_init (negb dynamic)) (node e)
                Hnm Hfree Hover eq_refl Hty Hset) as Hd.
  pose proof (getParam_cases paramName defValue outVal log_info dynamic e) as Hc.
  cbn [declare_parameter get_parameter_variant Node_parameters] in Hc.
  rewrite Hd in Hc. rewrite Node_get_parameter_variant_insert in Hc
    by (cbn [value]; intros Ho; apply Hset, get_type_NOT_SET, Ho).
  cbn [value] in Hc.
  destruct (get_value (T := T) o) as [t|x]; rewrite Hc; cbn [fst snd node logger parameters].
  - split; [reflexivity|]. split; [rewrite lookup_insert_eq; reflexivity|].
    intros t' Ht'. inversion Ht'; subst t'. reflexivity.
  - split; [reflexivity|]. split; [rewrite lookup_insert_eq; reflexivity|].
    intros t' Ht'. discriminate.
Qed.

(** X8, at the frame rate overridden to 15: default 30 and a variable
    holding 60 both give way. *)
Lemma getParam_override_wins_witness :
  let r := getParam "general.grab_frame_rate" 30 60 "" false (start override_node) in
  fst r = get_value (T := Z) (PARAMETER_INTEGER 15)
  /\ value <$> parameters (node (snd r)) !! "general.grab_frame_rate"%string
     = Some (PARAMETER_INTEGER 15)
  /\ (forall t : Z,
        fst r = Return t -> logger (snd r) = logger (start override_node) ++ info_records "" t).
Proof.
  apply (getParam_override_wins Z _ "general.grab_frame_rate" 30 60 "" false
           (start override_node) (PARAMETER_INTEGER 15)).
  - discriminate.
  - reflexivity.
  - reflexivity.
  - reflexivity.
  - discriminate.
Defined.



(** X10.  A call looks at nothing but its own name.  On two environments
    whose stores hold the same entry and the same override under
    [paramName] (whatever else they hold, whatever was logged), it returns
    the same value or throws the same exception, appends the same records,
    and leaves the same entry under [paramName]. *)
Theorem getParam_depends_only_on_own_name (T : Type) (PT : ParameterT T)
    (paramName : string) (defValue outVal : T) (log_info : string) (dynamic : bool)
    (e1 e2 : Env Node) :
  parameters (node e1) !! paramName = parameters (node e2) !! paramName ->
  parameter_overrides (node e1) !! paramName
  = parameter_overrides (node e2) !! paramName ->
  let r1 := getParam paramName defValue outVal log_info dynamic e1 in
  let r2 := getParam paramName defValue outVal log_info dynamic e2 in
  fst r1 = fst r2
  /\ (exists delta : list LogRecord,
        logger (snd r1) = logger e1 ++ delta /\ logger (snd r2) = logger e2 ++ delta)
  /\ parameters (node (snd r1)) !! paramName = parameters (node (snd r2)) !! paramName.
Proof.
  intros Hp Ho r1 r2.
  destruct (getParam_local_runs T PT paramName defValue outVal log_info dynamic e1 e2 Hp Ho)
    as (Hres & Hlog & Hstore).
  fold r1 r2 in Hres, Hlog, Hstore.
  split; [exact Hres|]. split; [exact Hlog|].
  destruct Hstore as [(x & _ & Hn1 & Hn2) | (pi & _ & Hi1 & Hi2 & _)].
  - rewrite Hn1, Hn2. exact Hp.
  - rewrite Hi1, Hi2, !lookup_insert_eq. reflexivity.
Qed.

(** X10, at the frame rate: on a fresh node, and on a node that has
    already loaded and logged the stream port. *)
Lemma getParam_depends_only_on_own_name_witness :
  let e1 := start fresh_node in
  let e2 := snd (getParam "stream.stream_port" 10000 10000 " * Port: " false
                   (start fresh_node)) in
  let r1 := getParam "general.grab_frame_rate" 30 30 " * Camera framerate: " false e1 in
  let r2 := getParam "general.grab_frame_rate" 30 30 " * Camera framerate: " false e2 in
  fst r1 = fst r2
  /\ (exists delta : list LogRecord,
        logger (snd r1) = logger e1 ++ delta /\ logger (snd r2) = logger e2 ++ delta)
  /\ parameters (node (snd r1)) !! "general.grab_frame_rate"%string
     = parameters (node (snd r2)) !! "general.grab_frame_rate"%string.
Proof.
  intros e1 e2.
  apply (getParam_depends_only_on_own_name Z _ "general.grab_frame_rate" 30 30
           " * Camera framerate: " false e1 e2).
  - vm_compute. reflexivity.
  - vm_compute. reflexivity.
Defined.

(** X11.  The order in which two different parameters are loaded does not
    matter.  If loading [a] and then [b] returns [ta] and [tb], then
    loading [b] and then [a] returns the same two values and ends with the
    same store. *)
Theorem getParam_order_irrelevant (Ta : Type) (PTa : ParameterT Ta)
    (Tb : Type) (PTb : ParameterT Tb)
    (a : string) (defa outa ta : Ta) (infoa : string) (dyna : bool)
    (b : string) (defb outb tb : Tb) (infob : string) (dynb : bool)
    (e ea eab : Env Node) :
  a <> b ->
  getParam a defa outa infoa dyna e = (Return ta, ea) ->
  getParam b defb outb infob dynb ea = (Return tb, eab) ->
  exists eb eba : Env Node,
    getParam b defb outb infob dynb e = (Return tb, eb)
    /\ getParam a defa outa infoa dyna eb = (Return ta, eba)
    /\ node eba = node eab.
Proof.
  intros Hab Hrun_a Hrun_ab.
  (* [a] on [e]: it returned, so it declared an entry. *)
  destruct (getParam_local_runs Ta PTa a defa outa infoa dyna e e eq_refl eq_refl)
    as (_ & _ & Ha).
  rewrite Hrun_a in Ha. cbn [fst snd] in Ha.
  destruct Ha as [(x & Hx & _) | (pia & Hfree_a & Hea & _ & Hoa & _)]; [discriminate|].
  (* [b] sees the same entry and override on [e] and on [ea]. *)
  assert (Hpb : parameters (node e) !! b = parameters (node ea) !! b).
  { rewrite Hea. symmetry. apply lookup_insert_ne. exact Hab. }
  assert (Hob : parameter_overrides (node e) !! b = parameter_overrides (node ea) !! b).
  { rewrite Hoa. reflexivity. }
  destruct (getParam_local_runs Tb PTb b defb outb infob dynb e ea Hpb Hob)
    as (Hres_b & _ & Hb).
  rewrite Hrun_ab in Hres_b, Hb. cbn [fst snd] in Hres_b, Hb.
  destruct Hb as [(x & Hx & _) | (pib & Hfree_b & Heb & Heab & Hob1 & Hob2)];
    [rewrite Hx in Hres_b; discriminate|].
  set (rb := getParam b defb outb infob dynb e) in *.
  (* [a] sees the same entry and override on [e] and after [b]. *)
  assert (Hpa : parameters (node e) !! a = parameters (node (snd rb)) !! a).
  { rewrite Heb. symmetry. apply lookup_insert_ne. congruence. }
  assert (Hoa' : parameter_overrides (node e) !! a
                 = parameter_overrides (node (snd rb)) !! a).
  { rewrite Hob1. reflexivity. }
  destruct (getParam_local_runs Ta PTa a defa outa infoa dyna e (snd rb) Hpa Hoa')
    as (Hres_a & _ & Ha).
  rewrite Hrun_a in Hres_a, Ha. cbn [fst snd] in Hres_a, Ha.
  destruct Ha as [(x & Hx & _) | (pia' & _ & Hea' & Heba & Hoa1 & Hoa2)]; [discriminate|].
  set (rba := getParam a defa outa infoa dyna (snd rb)) in *.
  exists (snd rb), (snd rba).
  split; [apply injective_projections; [exact Hres_b|reflexivity]|].
  split; [apply injective_projections; [symmetry; exact Hres_a|reflexivity]|].
  assert (Hparams : parameters (node (snd rba)) = parameters (node eab)).
  { rewrite Heba, Heab, Heb, Hea'. apply insert_insert_ne. exact Hab. }
  assert (Hovers : parameter_overrides (node (snd rba)) = parameter_overrides (node eab)).
  { rewrite Hoa2, Hob1, Hob2, Hoa. reflexivity. }
  destruct (node (snd rba)), (node eab). cbn in Hparams, Hovers. congruence.
Qed.

(** X11, at the frame rate and the stream port on a fresh node. *)
Lemma getParam_order_irrelevant_witness :
  let ra := getParam "general.grab_frame_rate" 30 30 " * Camera framerate: " false
              (start fresh_node) in
  let rab := getParam "stream.stream_port" 10000 10000 "" true (snd ra) in
  exists eb eba : Env Node,
    getParam "stream.stream_port" 10000 10000 "" true (start fresh_node)
    = (Return 10000, eb)
    /\ getParam "general.grab_frame_rate" 30 30 " * Camera framerate: " false eb
       = (Return 30, eba)
    /\ node eba = node (snd rab).
Proof.
  intros ra rab.
  apply (getParam_order_irrelevant Z _ Z _
           "general.grab_frame_rate" 30 30 30 " * Camera framerate: " false
           "stream.stream_port" 10000 10000 10000 "" true
           (start fresh_node) (snd ra) (snd rab)).
  - discriminate.
  - vm_compute. reflexivity.
  - vm_compute. reflexivity.
Defined.

(** X12.  A call that leaves [log_info] out (the default of line 55 is the
    empty string), on any node.  When the declaration throws, the exception
    leaves the call and nothing is logged.  When the lookup on the declared
    node succeeds, the call returns the value found and logs nothing; when
    the conversion throws, it logs nothing either.  Only when the lookup
    fails is a record logged: the warning, alone, and the call returns the
    incoming [outVal]. *)
Theorem getParam_3_logs_at_most_the_warning {N : Type} `{NodeParametersInterface N}
    {T : Type} `{ParameterT T}
    (paramName : string) (defValue outVal : T) (e : Env N) :
  let r := getParam_3 paramName defValue outVal e in
  match declare_parameter paramName (ParameterValue_of defValue)
          (set_read_only ParameterDescriptor_init true) (node e) with
  | Throw x => r = (Throw x, e)
  | Return n' =>
      match get_parameter (T := T) paramName n' with
      | Return (Some t) => r = (Return t, mkEnv n' (logger e))
      | Return None =>
          r = (Return outVal, mkEnv n' (logger e ++ [warning_record paramName defValue]))
      | Throw x => r = (Throw x, mkEnv n' (logger e))
      end
  end.
Proof.
  intros r. subst r. unfold getParam_3, default_log_info, default_dynamic.
  pose proof (getParam_cases paramName defValue outVal EmptyString false e) as Hc.
  cbn [negb] in Hc.
  destruct (declare_parameter paramName (ParameterValue_of defValue)
              (set_read_only ParameterDescriptor_init true) (node e)) as [n'|x].
  - unfold get_parameter.
    destruct (get_parameter_variant paramName n') as [v|].
    + destruct (get_value (T := T) v) as [t|x]; rewrite Hc; cbn [info_records string_empty].
      * rewrite app_nil_r. reflexivity.
      * reflexivity.
    + rewrite Hc. cbn [info_records string_empty]. rewrite app_nil_r. reflexivity.
  - exact Hc.
Qed.
